(** * AI Helper plugin: provider clients, provider manager and command layer

    A shallow embedding of the plugin's main module (the variant with both the
    OpenAI and the Claude provider and the toolbar item), followed by the
    properties of its provider abstraction and command dispatch.

    Modelling conventions.
    - A JavaScript string is a [string]: a sequence of code units, here the
      code units 0..255 (the Latin-1 range).  [trim], [toLowerCase] and
      [includes] follow ECMAScript on that range.
    - A JavaScript value coming out of [response.json()] is a [Value].
    - [async] code is sequential inside one call: an [IO] computation reads
      the host (selection, current block, network answers) and produces a
      result or a thrown error together with the ordered list of calls it
      made on the host, the network and the console.
    - The manager's private fields are an [AIManager] record passed
      explicitly. *)

From Stdlib Require Import String Ascii List Bool Arith Lia.
Import ListNotations.
Open Scope string_scope.
Set Warnings "-register-all".

(* ================================================================= *)
(** ** Strings *)

Module JsString.

Definition code (c : ascii) : nat := nat_of_ascii c.

(** WhiteSpace and LineTerminator code points below 256:
    TAB, LF, VT, FF, CR, SP and NBSP. *)
Definition isWhiteSpace (c : ascii) : bool :=
  let n := code c in
  ((n =? 9) || (n =? 10) || (n =? 11) || (n =? 12) || (n =? 13)
   || (n =? 32) || (n =? 160))%nat.

Fixpoint trimStart (s : string) : string :=
  match s with
  | EmptyString => EmptyString
  | String c s' => if isWhiteSpace c then trimStart s' else s
  end.

Fixpoint trimEnd (s : string) : string :=
  match s with
  | EmptyString => EmptyString
  | String c s' =>
      match trimEnd s' with
      | EmptyString => if isWhiteSpace c then EmptyString else String c EmptyString
      | t => String c t
      end
  end.

(** [String.prototype.trim] *)
Definition trim (s : string) : string := trimEnd (trimStart s).

(** Lower-case mapping of one code unit below 256: A-Z, and the letters
    U+00C0..U+00DE except the multiplication sign U+00D7. *)
Definition lowerChar (c : ascii) : ascii :=
  let n := code c in
  if (((65 <=? n) && (n <=? 90))
      || ((192 <=? n) && (n <=? 222) && negb (n =? 215)))%nat
  then ascii_of_nat (n + 32)
  else c.

(** [String.prototype.toLowerCase] *)
Fixpoint toLowerCase (s : string) : string :=
  match s with
  | EmptyString => EmptyString
  | String c s' => String (lowerChar c) (toLowerCase s')
  end.

Fixpoint startsWith (s p : string) : bool :=
  match p, s with
  | EmptyString, _ => true
  | String _ _, EmptyString => false
  | String a p', String b s' => Ascii.eqb a b && startsWith s' p'
  end.

(** [String.prototype.includes] *)
Fixpoint includes (s sub : string) : bool :=
  startsWith s sub
  || match s with
     | EmptyString => false
     | String _ s' => includes s' sub
     end.

Definition firstChar (s : string) : option ascii :=
  match s with
  | EmptyString => None
  | String c _ => Some c
  end.

Fixpoint lastChar (s : string) : option ascii :=
  match s with
  | EmptyString => None
  | String c EmptyString => Some c
  | String _ s' => lastChar s'
  end.

(** Truthiness of a string: only the empty string is falsy. *)
Definition truthy (s : string) : bool :=
  match s with
  | EmptyString => false
  | String _ _ => true
  end.

(** The line feed of a template literal's [\n]. *)
Definition nl : string := String "010"%char EmptyString.

(** Two strings spell the same word up to the case of the letters A-Z. *)
Definition isAsciiLetter (c : ascii) : bool :=
  let n := code c in
  (((65 <=? n) && (n <=? 90)) || ((97 <=? n) && (n <=? 122)))%nat.

Definition sameLetter (c d : ascii) : bool :=
  Ascii.eqb c d
  || (isAsciiLetter c && isAsciiLetter d
      && ((code c =? code d + 32) || (code d =? code c + 32))%nat).

Fixpoint sameLettersAnyCase (s t : string) : bool :=
  match s, t with
  | EmptyString, EmptyString => true
  | String c s', String d t' => sameLetter c d && sameLettersAnyCase s' t'
  | _, _ => false
  end.

(** Every code unit below 256. *)
Definition allAscii : list ascii := map ascii_of_nat (seq 0 256).

Fixpoint allAsciiLetters (s : string) : bool :=
  match s with
  | EmptyString => true
  | String c s' => isAsciiLetter c && allAsciiLetters s'
  end.

End JsString.
Import JsString.

(* ================================================================= *)
(** ** Values, errors and results *)

(** A value as [response.json()] can produce it, plus [undefined], which
    property access adds.  A number keeps its literal: the code never
    computes with one. *)
Inductive Value : Type :=
| VUndefined
| VNull
| VBool (b : bool)
| VNum (literal : string)
| VStr (s : string)
| VArr (items : list Value)
| VObj (fields : list (string * Value)).

(** A thrown error object: its constructor's name and its [message]. *)
Record JsError : Type := mkError { errName : string; message : string }.

(** [new Error(msg)] *)
Definition Error (msg : string) : JsError := mkError "Error" msg.

Inductive Result (A : Type) : Type :=
| Ok (a : A)
| Throw (e : JsError).
Arguments Ok {A} a.
Arguments Throw {A} e.

(** The faults the engine itself raises as a [TypeError]; the wording of the
    message is the engine's. *)
Inductive Fault : Type :=
| ReadOfNullish (base : Value) (prop : string)
| NotCallable (prop : string).

(** The own property [key] of a parsed object, [undefined] when absent.  The
    fields of a parsed object have distinct keys. *)
Fixpoint lookup (key : string) (fields : list (string * Value)) : Value :=
  match fields with
  | [] => VUndefined
  | (k, v) :: rest => if String.eqb k key then v else lookup key rest
  end.

(** The decimal spelling of a small array index, as a property key. *)
Definition indexKey (i : nat) : string :=
  String (ascii_of_nat (48 + i)) EmptyString.

(** [v.key] for the data properties read by the clients ([choices],
    [message], [content], [text]): none of them exists on a primitive or on
    an array, so only an object can answer with something else than
    [undefined]; reading from [null] or [undefined] is a fault. *)
Definition getField (v : Value) (key : string) : Fault + Value :=
  match v with
  | VUndefined | VNull => inl (ReadOfNullish v key)
  | VObj fields => inr (lookup key fields)
  | _ => inr VUndefined
  end.

(** [v[0]] *)
Definition getFirst (v : Value) : Fault + Value :=
  match v with
  | VUndefined | VNull => inl (ReadOfNullish v (indexKey 0))
  | VArr items => inr (nth 0 items VUndefined)
  | VStr (String c _) => inr (VStr (String c EmptyString))
  | VObj fields => inr (lookup (indexKey 0) fields)
  | _ => inr VUndefined
  end.

(** [v.trim()]: only a string has a callable [trim]. *)
Definition callTrim (v : Value) : Fault + Value :=
  match v with
  | VUndefined | VNull => inl (ReadOfNullish v "trim")
  | VStr s => inr (VStr (trim s))
  | _ => inl (NotCallable "trim")
  end.

(* ================================================================= *)
(** ** The boundary: network, host editor, console *)

(** The argument of [fetch]: the URL and the init object.  [body] is the
    string [JSON.stringify] made. *)
Record Request : Type := mkRequest {
  url : string;
  method : string;
  headers : list (string * string);
  body : string
}.

(** What the code reads of a [Response]: [ok], [statusText] and the outcome
    of [json()], which rejects when the body is not JSON. *)
Record Response : Type := mkResponse {
  ok : bool;
  statusText : string;
  json : Result Value
}.

Record Block : Type := mkBlock { uuid : string }.

Record AIConfig : Type := mkConfig { cfg_provider : string; cfg_apiKey : string }.

(** Everything one call reads from outside the plugin. *)
Record Host : Type := mkHost {
  (** [fetch(url, init)]: a response, or a rejection (network error) *)
  host_fetch : Request -> Result Response;
  (** [JSON.stringify] *)
  JSON_stringify : Value -> string;
  (** the message the engine puts in a [TypeError] *)
  faultMessage : Fault -> string;
  (** [logseq.Editor.getSelectedText()]: [None] is [null] *)
  host_selectedText : option string;
  (** [logseq.Editor.getCurrentBlock()]: [None] is [null] *)
  host_currentBlock : option Block;
  (** [logseq.settings.get(key)]: [None] is a missing setting *)
  host_settings : string -> option AIConfig
}.

(** The calls a computation makes on the outside, in program order. *)
Inductive Event : Type :=
| EvFetch (req : Request)
| EvConsoleError (label : string) (err : JsError)
| EvShowMsg (msg level : string)
| EvGetSelectedText
| EvGetCurrentBlock
| EvInsertBlock (blockId : string) (content : Value) (after : bool)
| EvSettingsGet (key : string).

Definition isFetch (e : Event) : bool :=
  match e with EvFetch _ => true | _ => false end.

Definition isInsertBlock (e : Event) : bool :=
  match e with EvInsertBlock _ _ _ => true | _ => false end.

Definition isShowMsg (e : Event) : bool :=
  match e with EvShowMsg _ _ => true | _ => false end.

(** The network calls, the block insertions and the notifications of a
    trace. *)
Definition networkCalls (tr : list Event) : list Event := filter isFetch tr.
Definition insertions (tr : list Event) : list Event := filter isInsertBlock tr.
Definition notifications (tr : list Event) : list Event := filter isShowMsg tr.

(* ================================================================= *)
(** ** Computations *)

(** An [async] function body: from the host to a result or a thrown error,
    with the trace of outside calls it made. *)
Definition IO (A : Type) : Type := Host -> Result A * list Event.

Definition ret {A} (a : A) : IO A := fun _ => (Ok a, []).

Definition throw {A} (e : JsError) : IO A := fun _ => (Throw e, []).

Definition bind {A B} (m : IO A) (k : A -> IO B) : IO B :=
  fun h =>
    match m h with
    | (Ok a, t1) => let (r, t2) := k a h in (r, (t1 ++ t2)%list)
    | (Throw e, t1) => (Throw e, t1)
    end.

(** [try { m } catch (error) { handler error }] *)
Definition try_catch {A} (m : IO A) (handler : JsError -> IO A) : IO A :=
  fun h =>
    match m h with
    | (Ok a, t1) => (Ok a, t1)
    | (Throw e, t1) => let (r, t2) := handler e h in (r, (t1 ++ t2)%list)
    end.

Declare Scope io_scope.
Delimit Scope io_scope with io.
Notation "x <- m ;; k" := (bind m (fun x => k))
  (at level 61, m at next level, right associativity) : io_scope.
Notation "m ;;; k" := (bind m (fun _ => k))
  (at level 61, right associativity) : io_scope.
Open Scope io_scope.

Definition emit (e : Event) : IO unit := fun _ => (Ok tt, [e]).

(** An engine fault becomes a thrown [TypeError]. *)
Definition engine (r : Fault + Value) : IO Value :=
  fun h =>
    match r with
    | inr v => (Ok v, [])
    | inl f => (Throw (mkError "TypeError" (faultMessage h f)), [])
    end.

Definition fetch (req : Request) : IO Response :=
  fun h => (host_fetch h req, [EvFetch req]).

Definition response_json (response : Response) : IO Value :=
  fun _ => (json response, []).

Definition stringify (v : Value) : IO string :=
  fun h => (Ok (JSON_stringify h v), []).

Definition console_error (label : string) (error : JsError) : IO unit :=
  emit (EvConsoleError label error).

Definition showMsg (msg level : string) : IO unit := emit (EvShowMsg msg level).

Definition Editor_getSelectedText : IO (option string) :=
  fun h => (Ok (host_selectedText h), [EvGetSelectedText]).

Definition Editor_getCurrentBlock : IO (option Block) :=
  fun h => (Ok (host_currentBlock h), [EvGetCurrentBlock]).

Definition Editor_insertBlock (blockId : string) (content : Value) (after : bool)
  : IO unit :=
  emit (EvInsertBlock blockId content after).

Definition settings_get (key : string) : IO (option AIConfig) :=
  fun h => (Ok (host_settings h key), [EvSettingsGet key]).

(* ================================================================= *)
(** ** Provider clients *)

(** [interface AIProvider].  The operations are typed [Promise<string>] in
    the source; what they resolve to at run time is whatever the client
    read out of the response, hence a [Value]. *)
Record AIProvider : Type := mkProvider {
  name : string;
  summarizeText : string -> IO Value;
  improveWriting : string -> IO Value;
  changeWritingStyle : string -> string -> IO Value;
  completeText : string -> IO Value
}.

(** The four prompt templates, the same in both clients. *)
Module Prompt.
Definition summarize (text : string) : string :=
  "Please provide a concise summary of the following text:" ++ nl ++ nl ++ text.
Definition improve (text : string) : string :=
  "Please improve the following text while maintaining its core message:"
  ++ nl ++ nl ++ text.
Definition restyle (text style : string) : string :=
  "Please rewrite the following text in a " ++ style ++ " style:"
  ++ nl ++ nl ++ text.
Definition complete (text : string) : string :=
  "Please complete the following text naturally:" ++ nl ++ nl ++ text.
End Prompt.

(** [throw new Error(`API request failed: ${response.statusText}`)] *)
Definition VendorRequestError (response : Response) : JsError :=
  Error ("API request failed: " ++ statusText response).

Module OpenAIProvider.

Definition baseUrl : string := "https://api.openai.com/v1/chat/completions".

Definition payload (prompt : string) : Value :=
  VObj [ ("model", VStr "gpt-3.5-turbo");
         ("messages", VArr [VObj [("role", VStr "user"); ("content", VStr prompt)]]);
         ("temperature", VNum "0.7") ].

Definition request (apiKey bodyText : string) : Request :=
  {| url := baseUrl;
     method := "POST";
     headers := [ ("Content-Type", "application/json");
                  ("Authorization", "Bearer " ++ apiKey) ];
     body := bodyText |}.

Definition makeRequest (apiKey prompt : string) : IO Value :=
  try_catch
    (bodyText <- stringify (payload prompt) ;;
     response <- fetch (request apiKey bodyText) ;;
     if negb (ok response) then throw (VendorRequestError response)
     else
       data <- response_json response ;;
       choices <- engine (getField data "choices") ;;
       choice <- engine (getFirst choices) ;;
       msg <- engine (getField choice "message") ;;
       content <- engine (getField msg "content") ;;
       engine (callTrim content))
    (fun error =>
       console_error "OpenAI API error:" error ;;;
       throw error).

Definition new (apiKey : string) : AIProvider :=
  {| name := "OpenAI";
     summarizeText := fun text => makeRequest apiKey (Prompt.summarize text);
     improveWriting := fun text => makeRequest apiKey (Prompt.improve text);
     changeWritingStyle :=
       fun text style => makeRequest apiKey (Prompt.restyle text style);
     completeText := fun text => makeRequest apiKey (Prompt.complete text) |}.

End OpenAIProvider.

Module ClaudeProvider.

Definition baseUrl : string := "https://api.anthropic.com/v1/messages".

Definition payload (prompt : string) : Value :=
  VObj [ ("model", VStr "claude-2");
         ("messages", VArr [VObj [("role", VStr "user"); ("content", VStr prompt)]]);
         ("max_tokens", VNum "1024") ].

Definition request (apiKey bodyText : string) : Request :=
  {| url := baseUrl;
     method := "POST";
     headers := [ ("Content-Type", "application/json");
                  ("x-api-key", apiKey);
                  ("anthropic-version", "2023-06-01") ];
     body := bodyText |}.

Definition makeRequest (apiKey prompt : string) : IO Value :=
  try_catch
    (bodyText <- stringify (payload prompt) ;;
     response <- fetch (request apiKey bodyText) ;;
     if negb (ok response) then throw (VendorRequestError response)
     else
       data <- response_json response ;;
       content <- engine (getField data "content") ;;
       first <- engine (getFirst content) ;;
       engine (getField first "text"))
    (fun error =>
       console_error "Claude API error:" error ;;;
       throw error).

Definition new (apiKey : string) : AIProvider :=
  {| name := "Claude";
     summarizeText := fun text => makeRequest apiKey (Prompt.summarize text);
     improveWriting := fun text => makeRequest apiKey (Prompt.improve text);
     changeWritingStyle :=
       fun text style => makeRequest apiKey (Prompt.restyle text style);
     completeText := fun text => makeRequest apiKey (Prompt.complete text) |}.

End ClaudeProvider.

(* ================================================================= *)
(** ** The manager *)

(** [class AIManager]: its two private fields. *)
Record AIManager : Type := mkManager {
  provider : option AIProvider;
  config : option AIConfig
}.

(** [new AIManager()] *)
Definition aiManager0 : AIManager := mkManager None None.

Definition UnsupportedProviderError (providerName : string) : JsError :=
  Error ("Unsupported AI provider: " ++ providerName).

Definition ProviderNotConfiguredError : JsError :=
  Error "AI provider not configured. Please set up your API key in settings.".

Definition UnknownCommandError (command : string) : JsError :=
  Error ("Unknown command: " ++ command).

(** [setProvider]: the outcome and the manager afterwards. *)
Definition setProvider (this : AIManager) (providerName apiKey : string)
  : Result unit * AIManager :=
  let selector := toLowerCase providerName in
  if selector =? "openai" then
    (Ok tt, mkManager (Some (OpenAIProvider.new apiKey)) (config this))
  else if selector =? "claude" then
    (Ok tt, mkManager (Some (ClaudeProvider.new apiKey)) (config this))
  else
    (Throw (UnsupportedProviderError providerName), this).

(** [initialize]: the outcome, the manager afterwards and the trace. *)
Definition initialize (this : AIManager) (h : Host)
  : Result unit * AIManager * list Event :=
  match settings_get "aiConfig" h with
  | (Ok (Some cfg), tr) =>
      let this1 := mkManager (provider this) (Some cfg) in
      (setProvider this1 (cfg_provider cfg) (cfg_apiKey cfg), tr)
  | (Ok None, tr) => (Ok tt, this, tr)
  | (Throw e, tr) => (Throw e, this, tr)
  end.

(** [style || 'professional'] for an optional string argument. *)
Definition orElse (style : option string) (fallback : string) : string :=
  match style with
  | Some s => if truthy s then s else fallback
  | None => fallback
  end.

(** The [switch (command)] of [executeAICommand]. *)
Definition dispatch (p : AIProvider) (command text : string) (style : option string)
  : IO Value :=
  if command =? "summarize" then summarizeText p text
  else if command =? "improve" then improveWriting p text
  else if command =? "style" then changeWritingStyle p text (orElse style "professional")
  else if command =? "complete" then completeText p text
  else throw (UnknownCommandError command).

(** The [catch] of [executeAICommand]: log, rethrow. *)
Definition logAndRethrow (error : JsError) : IO Value :=
  console_error "AI command execution error:" error ;;;
  throw error.

Definition executeAICommand (this : AIManager) (command text : string)
    (style : option string) : IO Value :=
  match provider this with
  | None => throw ProviderNotConfiguredError
  | Some p => try_catch (dispatch p command text style) logAndRethrow
  end.

(* ================================================================= *)
(** ** The command layer *)

Definition NoSelectionError : JsError :=
  Error "No text selected. Please select some text first.".

Definition getSelectedText : IO string :=
  text <- Editor_getSelectedText ;;
  match text with
  | Some s => if truthy s then ret s else throw NoSelectionError
  | None => throw NoSelectionError
  end.

(** The [try] block shared by the four actions; they differ in the progress
    message, the command key and the style argument only. *)
Definition actionBody (aiManager : AIManager) (progress command : string)
    (style : option string) : IO unit :=
  text <- getSelectedText ;;
  showMsg progress "info" ;;;
  result <- executeAICommand aiManager command text style ;;
  block <- Editor_getCurrentBlock ;;
  match block with
  | Some b => Editor_insertBlock (uuid b) result true
  | None => ret tt
  end.

Definition commandAction (aiManager : AIManager) (progress command : string)
    (style : option string) : IO unit :=
  try_catch (actionBody aiManager progress command style)
            (fun error => showMsg (message error) "error").

(** A command descriptor of [main]. *)
Record Command : Type := mkCommand {
  key : string;
  label : string;
  action : IO unit
}.

(** The [commands] array of [main], for the manager the actions close over. *)
Definition commands (aiManager : AIManager) : list Command :=
  [ {| key := "summarize"; label := "Summarize text";
       action := commandAction aiManager "Summarizing text..." "summarize" None |};
    {| key := "improve"; label := "Improve writing";
       action := commandAction aiManager "Improving text..." "improve" None |};
    {| key := "formal"; label := "Make text formal";
       action := commandAction aiManager "Changing style..." "style" (Some "formal") |};
    {| key := "complete"; label := "Complete text";
       action := commandAction aiManager "Completing text..." "complete" None |} ].

(* ================================================================= *)
(** ** Concrete hosts used to exercise the statements *)

Module Sample.

(** A vendor answer in the OpenAI shape carrying [text]. *)
Definition openaiBody (text : string) : Value :=
  VObj [("choices", VArr [VObj [("message", VObj [("content", VStr text)])]])].

(** A vendor answer in the Claude shape carrying [text]. *)
Definition claudeBody (text : string) : Value :=
  VObj [("content", VArr [VObj [("text", VStr text)]])].

Definition success (data : Value) : Response :=
  {| ok := true; statusText := "OK"; json := Ok data |}.

Definition unauthorized : Response :=
  {| ok := false; statusText := "Unauthorized";
     json := Ok (VObj [("error", VStr "invalid key")]) |}.

(** A host answering every request with [answer]. *)
Definition host (answer : Result Response) (selection : option string)
    (block : option Block) : Host :=
  {| host_fetch := fun _ => answer;
     JSON_stringify := fun _ => "{}";
     faultMessage := fun _ => "not an object";
     host_selectedText := selection;
     host_currentBlock := block;
     host_settings := fun _ => Some (mkConfig "openai" "sk-test") |}.

Definition fox : string := "The quick brown fox jumps.".

(** No network: every [fetch] rejects; nothing selected, no block. *)
Definition offline : Host := host (Throw (Error "Failed to fetch")) None None.

(** The vendor answers 401 to everything; text selected, block current. *)
Definition rejecting : Host :=
  host (Ok unauthorized) (Some fox) (Some (mkBlock "b1")).

(** The vendor answers in the given shape; text selected; no current block. *)
Definition answering (data : Value) (block : option Block) : Host :=
  host (Ok (success data)) (Some fox) block.

Definition claude : AIManager :=
  mkManager (Some (ClaudeProvider.new "sk-test")) None.

Definition openai : AIManager :=
  mkManager (Some (OpenAIProvider.new "sk-test")) None.

End Sample.

(* ================================================================= *)
(** ** Vocabulary of the statements *)

(** The two provider classes. *)
Inductive Variant : Type := OpenAI | Claude.

Definition create (v : Variant) (apiKey : string) : AIProvider :=
  match v with
  | OpenAI => OpenAIProvider.new apiKey
  | Claude => ClaudeProvider.new apiKey
  end.

(** The request a client of variant [v] sends for [prompt] on host [h]. *)
Definition requestOf (v : Variant) (apiKey prompt : string) (h : Host) : Request :=
  match v with
  | OpenAI =>
      OpenAIProvider.request apiKey (JSON_stringify h (OpenAIProvider.payload prompt))
  | Claude =>
      ClaudeProvider.request apiKey (JSON_stringify h (ClaudeProvider.payload prompt))
  end.

(** The four operations of the interface. *)
Inductive Operation : Type :=
| Summarize
| Improve
| Restyle (style : string)
| Complete.

Definition promptOf (op : Operation) (text : string) : string :=
  match op with
  | Summarize => Prompt.summarize text
  | Improve => Prompt.improve text
  | Restyle style => Prompt.restyle text style
  | Complete => Prompt.complete text
  end.

Definition perform (p : AIProvider) (op : Operation) (text : string) : IO Value :=
  match op with
  | Summarize => summarizeText p text
  | Improve => improveWriting p text
  | Restyle style => changeWritingStyle p text style
  | Complete => completeText p text
  end.

(** The closed set of command keys. *)
Definition commandKeys : list string := ["summarize"; "improve"; "style"; "complete"].

Definition knownCommand (command : string) : bool :=
  existsb (String.eqb command) commandKeys.

(** The vendor names, as the provider classes spell them. *)
Definition vendors : list string := ["OpenAI"; "Claude"].

Definition succeeded {A} (r : Result A) : bool :=
  match r with Ok _ => true | Throw _ => false end.

(** A call on the manager's public interface. *)
Inductive ManagerCall : Type :=
| CallInitialize
| CallSetProvider (providerName apiKey : string)
| CallExecuteAICommand (command text : string) (style : option string).

(** One call on host [h]: whether it succeeded, and the manager afterwards. *)
Definition call (this : AIManager) (c : ManagerCall) (h : Host) : bool * AIManager :=
  match c with
  | CallInitialize =>
      let '(r, this', _) := initialize this h in (succeeded r, this')
  | CallSetProvider providerName apiKey =>
      let (r, this') := setProvider this providerName apiKey in (succeeded r, this')
  | CallExecuteAICommand command text style =>
      (succeeded (fst (executeAICommand this command text style h)), this)
  end.

(** A sequence of calls, each on the host as it is at that moment. *)
Fixpoint run (this : AIManager) (calls : list (ManagerCall * Host)) : AIManager :=
  match calls with
  | [] => this
  | (c, h) :: rest => run (snd (call this c h)) rest
  end.

(** Configured: a provider is active. *)
Definition isConfigured (this : AIManager) : bool :=
  match provider this with Some _ => true | None => false end.

(** The providers the manager can hold: those its own [setProvider]
    constructs. *)
Definition Installed (this : AIManager) : Prop :=
  match provider this with
  | None => True
  | Some p => exists v apiKey, p = create v apiKey
  end.

(** The label a client logs under. *)
Definition clientLabel (v : Variant) : string :=
  match v with
  | OpenAI => "OpenAI API error:"
  | Claude => "Claude API error:"
  end.

Definition makeRequestOf (v : Variant) : string -> string -> IO Value :=
  match v with
  | OpenAI => OpenAIProvider.makeRequest
  | Claude => ClaudeProvider.makeRequest
  end.

(** What a client does with the response once [fetch] has resolved: the
    rest of the [try] block of its [makeRequest]. *)
Definition readResponse (v : Variant) (response : Response) : IO Value :=
  match v with
  | OpenAI =>
      if negb (ok response) then throw (VendorRequestError response)
      else
        data <- response_json response ;;
        choices <- engine (getField data "choices") ;;
        choice <- engine (getFirst choices) ;;
        msg <- engine (getField choice "message") ;;
        content <- engine (getField msg "content") ;;
        engine (callTrim content)
  | Claude =>
      if negb (ok response) then throw (VendorRequestError response)
      else
        data <- response_json response ;;
        content <- engine (getField data "content") ;;
        first <- engine (getFirst content) ;;
        engine (getField first "text")
  end.

(** The completion text of a well-formed answer in the vendor's shape:
    [choices[0].message.content] for OpenAI, [content[0].text] for Claude. *)
Definition completionOf (v : Variant) (data : Value) : option string :=
  match v, data with
  | OpenAI, VObj fields =>
      match lookup "choices" fields with
      | VArr (VObj choice :: _) =>
          match lookup "message" choice with
          | VObj msg =>
              match lookup "content" msg with
              | VStr s => Some s
              | _ => None
              end
          | _ => None
          end
      | _ => None
      end
  | Claude, VObj fields =>
      match lookup "content" fields with
      | VArr (VObj first :: _) =>
          match lookup "text" first with
          | VStr s => Some s
          | _ => None
          end
      | _ => None
      end
  | _, _ => None
  end.

(** A computation that makes no call on the outside. *)
Definition silent {A} (m : IO A) : Prop := forall h, snd (m h) = [].

Definition isConsoleError (e : Event) : bool :=
  match e with EvConsoleError _ _ => true | _ => false end.

(** A trace made of network calls and console output only. *)
Definition clientTrace (tr : list Event) : bool :=
  forallb (fun e => isFetch e || isConsoleError e) tr.

(** The host reports no selected text: [null] or the empty string. *)
Definition noSelection (h : Host) : bool :=
  match host_selectedText h with
  | Some s => negb (truthy s)
  | None => true
  end.

(** The parameters in which the four actions of [main] differ. *)
Record CommandRow : Type := mkRow {
  row_key : string;
  row_label : string;
  row_progress : string;
  row_command : string;
  row_style : option string
}.

Definition commandTable : list CommandRow :=
  [ mkRow "summarize" "Summarize text" "Summarizing text..." "summarize" None;
    mkRow "improve" "Improve writing" "Improving text..." "improve" None;
    mkRow "formal" "Make text formal" "Changing style..." "style" (Some "formal");
    mkRow "complete" "Complete text" "Completing text..." "complete" None ].

Definition toCommand (aiManager : AIManager) (row : CommandRow) : Command :=
  {| key := row_key row;
     label := row_label row;
     action := commandAction aiManager (row_progress row) (row_command row)
                             (row_style row) |}.

(** The selection the host reports is a non-empty [text]. *)
Definition selected (h : Host) (text : string) : Prop :=
  host_selectedText h = Some text /\ truthy text = true.

(** The ways a command can fail, with the error raised: no selection, no
    provider configured, or a throw out of [executeAICommand] (vendor status,
    network, malformed answer). *)
Inductive Failure (aiManager : AIManager) (row : CommandRow) (h : Host)
  : JsError -> Prop :=
| FailNoSelection :
    noSelection h = true ->
    Failure aiManager row h NoSelectionError
| FailUnconfigured text :
    selected h text ->
    provider aiManager = None ->
    Failure aiManager row h ProviderNotConfiguredError
| FailExecute text e tr :
    selected h text ->
    executeAICommand aiManager (row_command row) text (row_style row) h
    = (Throw e, tr) ->
    Failure aiManager row h e.

(** The notifications that report an outcome: level error or success. *)
Definition isOutcomeMsg (e : Event) : bool :=
  match e with
  | EvShowMsg _ level => (level =? "error") || (level =? "success")
  | _ => false
  end.

Definition outcomeNotifications (tr : list Event) : list Event :=
  filter isOutcomeMsg tr.

(* ================================================================= *)
(** ** Start-up: the settings schema and [main] *)

(** One entry of the array handed to [useSettingsSchema]. *)
Record SettingSchema : Type := mkSetting {
  setting_key : string;
  setting_type : string;
  setting_default : AIConfig;
  setting_description : string;
  setting_title : string
}.

(** The schema [registerSettings] declares. *)
Definition settingsSchema : list SettingSchema :=
  [ mkSetting "aiConfig" "object" (mkConfig "openai" EmptyString)
              "AI configuration" "AI Settings" ].

Definition toolbarIconClass : string := "ai-helper-toolbar-icon".

(** The calls of [main] on the host.  The toolbar template and the style
    sheet are text built around [toolbarIconClass]; the events keep the
    class and leave the markup out. *)
Inductive StartupEvent : Type :=
| SuConsoleInfo (msg : string)
| SuUseSettingsSchema (schema : list SettingSchema)
| SuHost (e : Event)
| SuRegisterSlashCommand (label : string) (action : IO unit)
| SuProvideModel (methods : list string)
| SuRegisterUIItem (type key : string)
| SuProvideStyle (className : string)
| SuConsoleError (err : JsError).

Definition registerSettings : list StartupEvent :=
  [SuUseSettingsSchema settingsSchema].

(** [commands.forEach(cmd => registerSlashCommand(cmd.label, cmd.action))] *)
Definition registerCommands (cmds : list Command) : list StartupEvent :=
  map (fun cmd => SuRegisterSlashCommand (label cmd) (action cmd)) cmds.

(** [main], for the plugin id of the package: the outcome, the manager
    afterwards and the calls made.  [initialize] is awaited before anything
    is registered, so its throw ends [main]. *)
Definition main (pluginId : string) (aiManager : AIManager) (h : Host)
  : Result unit * AIManager * list StartupEvent :=
  let before :=
    (SuConsoleInfo ("#" ++ pluginId ++ ": MAIN") :: registerSettings)%list in
  match initialize aiManager h with
  | (Throw e, aiManager', tr) =>
      (Throw e, aiManager', (before ++ map SuHost tr)%list)
  | (Ok _, aiManager', tr) =>
      (Ok tt, aiManager',
       (before ++ map SuHost tr
        ++ registerCommands (commands aiManager')
        ++ [ SuProvideModel ["show"];
             SuRegisterUIItem "toolbar" toolbarIconClass;
             SuProvideStyle toolbarIconClass ])%list)
  end.

(** [logseq.ready(main).catch(console.error)] *)
Definition ready_main (pluginId : string) (aiManager : AIManager) (h : Host)
  : AIManager * list StartupEvent :=
  match main pluginId aiManager h with
  | (Throw e, aiManager', tr) => (aiManager', (tr ++ [SuConsoleError e])%list)
  | (Ok _, aiManager', tr) => (aiManager', tr)
  end.

(** The slash commands a start-up trace registered. *)
Fixpoint registered (tr : list StartupEvent) : list (string * IO unit) :=
  match tr with
  | [] => []
  | SuRegisterSlashCommand label action :: rest => (label, action) :: registered rest
  | _ :: rest => registered rest
  end.

Definition isRegisterUIItem (e : StartupEvent) : bool :=
  match e with SuRegisterUIItem _ _ => true | _ => false end.

(** The operation the [switch] of [executeAICommand] selects, if any. *)
Definition operationOf (command : string) (style : option string)
  : option Operation :=
  if command =? "summarize" then Some Summarize
  else if command =? "improve" then Some Improve
  else if command =? "style" then Some (Restyle (orElse style "professional"))
  else if command =? "complete" then Some Complete
  else None.

(** The [name] field of each provider class. *)
Definition vendorName (v : Variant) : string :=
  match v with
  | OpenAI => "OpenAI"
  | Claude => "Claude"
  end.

(** The header carrying the credential, per vendor. *)
Definition credentialHeader (v : Variant) (apiKey : string) : string * string :=
  match v with
  | OpenAI => ("Authorization", "Bearer " ++ apiKey)
  | Claude => ("x-api-key", apiKey)
  end.

(** A provider name spells one of the vendors, in any letter casing. *)
Definition supported (providerName : string) : bool :=
  existsb (sameLettersAnyCase providerName) vendors.

(* ================================================================= *)
(** ** The first variant of the module: OpenAI only, defensive host access *)

Module Basic.

(** Which parts of the host object exist; [?.] yields [undefined] on a
    missing part instead of calling it. *)
Record Apis : Type := mkApis {
  api_settings : bool;
  api_Editor : bool;
  api_App : bool
}.

(** [error.message || fallback] *)
Definition messageOr (error : JsError) (fallback : string) : string :=
  if truthy (message error) then message error else fallback.

Definition makeRequest (apiKey prompt : string) : IO Value :=
  try_catch
    (bodyText <- stringify (OpenAIProvider.payload prompt) ;;
     response <- fetch (OpenAIProvider.request apiKey bodyText) ;;
     if negb (ok response) then throw (VendorRequestError response)
     else
       data <- response_json response ;;
       choices <- engine (getField data "choices") ;;
       choice <- engine (getFirst choices) ;;
       msg <- engine (getField choice "message") ;;
       content <- engine (getField msg "content") ;;
       engine (callTrim content))
    (fun error =>
       console_error "OpenAI API error:" error ;;;
       throw (Error (messageOr error "Unknown API error"))).

Definition new (apiKey : string) : AIProvider :=
  {| name := "OpenAI";
     summarizeText := fun text => makeRequest apiKey (Prompt.summarize text);
     improveWriting := fun text => makeRequest apiKey (Prompt.improve text);
     changeWritingStyle :=
       fun text style => makeRequest apiKey (Prompt.restyle text style);
     completeText := fun text => makeRequest apiKey (Prompt.complete text) |}.

Definition setProvider (this : AIManager) (providerName apiKey : string)
  : Result unit * AIManager :=
  if toLowerCase providerName =? "openai" then
    (Ok tt, mkManager (Some (new apiKey)) (config this))
  else
    (Throw (UnsupportedProviderError providerName), this).

(** [(logseq as any)?.settings?.get('aiConfig')] *)
Definition settings_get (apis : Apis) (key : string) : IO (option AIConfig) :=
  if api_settings apis then settings_get key else ret None.

Definition initialize (apis : Apis) (this : AIManager) (h : Host)
  : Result unit * AIManager * list Event :=
  match settings_get apis "aiConfig" h with
  | (Ok (Some cfg), tr) =>
      let this1 := mkManager (provider this) (Some cfg) in
      (setProvider this1 (cfg_provider cfg) (cfg_apiKey cfg), tr)
  | (Ok None, tr) => (Ok tt, this, tr)
  | (Throw e, tr) => (Throw e, this, tr)
  end.

Definition executeAICommand (this : AIManager) (command text : string)
    (style : option string) : IO Value :=
  match provider this with
  | None => throw ProviderNotConfiguredError
  | Some p =>
      try_catch (dispatch p command text style)
        (fun error =>
           console_error "AI command execution error:" error ;;;
           throw (Error (messageOr error "Unknown AI command error")))
  end.

(** [(logseq as any)?.App?.showMsg(msg, level)] *)
Definition showMsg (apis : Apis) (msg level : string) : IO unit :=
  if api_App apis then showMsg msg level else ret tt.

Definition getSelectedText (apis : Apis) : IO string :=
  text <- (if api_Editor apis then Editor_getSelectedText else ret None) ;;
  match text with
  | Some s => if truthy s then ret s else throw NoSelectionError
  | None => throw NoSelectionError
  end.

(** The action of the one command of this variant, summarize. *)
Definition summarizeAction (apis : Apis) (aiManager : AIManager) : IO unit :=
  try_catch
    (text <- getSelectedText apis ;;
     showMsg apis "Summarizing text..." "info" ;;;
     summary <- executeAICommand aiManager "summarize" text None ;;
     block <- (if api_Editor apis then Editor_getCurrentBlock else ret None) ;;
     match block with
     | Some b =>
         if api_Editor apis then Editor_insertBlock (uuid b) summary true
         else ret tt
     | None => ret tt
     end)
    (fun error => showMsg apis (message error) "error").

(** The manager of this variant holds a provider of its own making. *)
Definition Installed (this : AIManager) : Prop :=
  match provider this with
  | None => True
  | Some p => exists apiKey, p = new apiKey
  end.

End Basic.

(* ================================================================= *)
(** ** Strings: lemmas *)

Section StringFacts.

Lemma allAscii_complete (c : ascii) : In c allAscii.
Proof.
  unfold allAscii. rewrite <- (ascii_nat_embedding c).
  apply in_map, in_seq. pose proof (nat_ascii_bounded c). lia.
Qed.

Lemma forall_ascii (P : ascii -> bool) :
  forallb P allAscii = true -> forall c, P c = true.
Proof.
  intros H c. rewrite forallb_forall in H. apply H, allAscii_complete.
Qed.

Lemma lowerChar_sameLetter (c d : ascii) :
  isAsciiLetter d = true ->
  Ascii.eqb (lowerChar c) (lowerChar d) = sameLetter c d.
Proof.
  intros Hd.
  assert (H : forallb (fun c => forallb (fun d =>
              implb (isAsciiLetter d)
                    (Bool.eqb (Ascii.eqb (lowerChar c) (lowerChar d))
                              (sameLetter c d))) allAscii) allAscii = true)
    by (vm_compute; reflexivity).
  pose proof (forall_ascii _ (forall_ascii _ H c) d) as E.
  cbv beta in E. rewrite Hd in E. simpl in E.
  now apply Bool.eqb_prop in E.
Qed.

Lemma toLowerCase_sameLetters (s t : string) :
  allAsciiLetters t = true ->
  (toLowerCase s =? toLowerCase t) = sameLettersAnyCase s t.
Proof.
  revert t. induction s as [|c s IH]; intros [|d t] Ht; simpl; try reflexivity.
  simpl in Ht. apply andb_true_iff in Ht as [Hd Ht].
  now rewrite lowerChar_sameLetter, IH.
Qed.

(** No name spells both vendors. *)
Lemma vendors_disjoint (s : string) :
  sameLettersAnyCase s "OpenAI" = true -> sameLettersAnyCase s "Claude" = false.
Proof.
  destruct s as [|c s]; simpl; [discriminate|].
  intros E. apply andb_true_iff in E as [E _].
  pose proof (forall_ascii
                (fun c => implb (sameLetter c "O") (negb (sameLetter c "C")))
                eq_refl c) as X.
  cbv beta in X. rewrite E in X. simpl in X.
  apply negb_true_iff in X. now rewrite X.
Qed.

Lemma startsWith_refl (s : string) : startsWith s s = true.
Proof.
  induction s as [|c s IH]; simpl; [reflexivity|].
  now rewrite Ascii.eqb_refl, IH.
Qed.

Lemma includes_suffix (a s : string) : includes (a ++ s) s = true.
Proof.
  induction a as [|c a IH]; simpl.
  - destruct s; simpl; [reflexivity|].
    now rewrite Ascii.eqb_refl, startsWith_refl.
  - rewrite IH. apply orb_true_r.
Qed.

(** [trim] leaves no white space at either end. *)
Lemma trimStart_first (s : string) :
  match firstChar (trimStart s) with
  | Some c => isWhiteSpace c = false
  | None => True
  end.
Proof.
  induction s as [|c s IH]; simpl; [exact I|].
  destruct (isWhiteSpace c) eqn:E; [exact IH | exact E].
Qed.

Lemma trimEnd_last (s : string) :
  match lastChar (trimEnd s) with
  | Some c => isWhiteSpace c = false
  | None => True
  end.
Proof.
  induction s as [|c s IH]; simpl; [exact I|].
  destruct (trimEnd s) as [|d t] eqn:E.
  - destruct (isWhiteSpace c) eqn:W; simpl; [exact I | exact W].
  - exact IH.
Qed.

Lemma trimEnd_first (s : string) :
  match firstChar s with
  | Some c => isWhiteSpace c = false -> firstChar (trimEnd s) = Some c
  | None => True
  end.
Proof.
  destruct s as [|c s]; simpl; [exact I|].
  intros W. destruct (trimEnd s); [now rewrite W | reflexivity].
Qed.

Lemma trim_edges (s : string) :
  match firstChar (trim s), lastChar (trim s) with
  | Some c, Some d => isWhiteSpace c = false /\ isWhiteSpace d = false
  | None, None => True
  | _, _ => False
  end.
Proof.
  unfold trim.
  pose proof (trimStart_first s) as F.
  pose proof (trimEnd_first (trimStart s)) as K.
  pose proof (trimEnd_last (trimStart s)) as L.
  destruct (firstChar (trimStart s)) as [c|] eqn:E.
  - rewrite (K F).
    destruct (lastChar (trimEnd (trimStart s))) as [d|] eqn:D; [now split|].
    specialize (K F). clear -K D. exfalso.
    induction (trimEnd (trimStart s)) as [|x t IH] in c, K, D |- *;
      [discriminate|].
    simpl in D. destruct t as [|y t]; [discriminate|].
    exact (IH y eq_refl D).
  - destruct (trimStart s); [exact I | discriminate].
Qed.

End StringFacts.

(* ================================================================= *)
(** ** The monad: lemmas *)

Section IOFacts.

Context {A B : Type}.

Lemma bind_ok (m : IO A) (k : A -> IO B) (h : Host) (a : A) (t : list Event) :
  m h = (Ok a, t) ->
  bind m k h = (fst (k a h), (t ++ snd (k a h))%list).
Proof. unfold bind. intros ->. now destruct (k a h). Qed.

Lemma bind_throw (m : IO A) (k : A -> IO B) (h : Host) (e : JsError)
    (t : list Event) :
  m h = (Throw e, t) -> bind m k h = (Throw e, t).
Proof. unfold bind. now intros ->. Qed.

Lemma try_catch_ok (m : IO A) (handler : JsError -> IO A) (h : Host) (a : A)
    (t : list Event) :
  m h = (Ok a, t) -> try_catch m handler h = (Ok a, t).
Proof. unfold try_catch. now intros ->. Qed.

Lemma try_catch_throw (m : IO A) (handler : JsError -> IO A) (h : Host)
    (e : JsError) (t : list Event) :
  m h = (Throw e, t) ->
  try_catch m handler h = (fst (handler e h), (t ++ snd (handler e h))%list).
Proof. unfold try_catch. intros ->. now destruct (handler e h). Qed.

End IOFacts.

Lemma clientTrace_app (t1 t2 : list Event) :
  clientTrace (t1 ++ t2) = clientTrace t1 && clientTrace t2.
Proof. apply forallb_app. Qed.

Lemma clientTrace_quiet (tr : list Event) :
  clientTrace tr = true -> insertions tr = [] /\ notifications tr = [].
Proof.
  induction tr as [|e tr IH]; simpl; [now split|].
  intros H. apply andb_true_iff in H as [He Htr].
  destruct (IH Htr) as [Hi Hn]. unfold insertions, notifications in *. simpl.
  destruct e; simpl in *; try discriminate; now rewrite ?Hi, ?Hn.
Qed.

(* ================================================================= *)
(** ** Provider clients: lemmas *)

Section Silent.

Context {A B : Type}.

Lemma silent_ret (a : A) : silent (ret a).
Proof. now intros h. Qed.

Lemma silent_throw (e : JsError) : silent (@throw A e).
Proof. now intros h. Qed.

Lemma silent_bind (m : IO A) (k : A -> IO B) :
  silent m -> (forall a, silent (k a)) -> silent (bind m k).
Proof.
  intros Hm Hk h. unfold bind. specialize (Hm h).
  destruct (m h) as [[a|e] t]; simpl in *; subst; [|reflexivity].
  specialize (Hk a h). now destruct (k a h).
Qed.

Lemma silent_if (b : bool) (m1 m2 : IO A) :
  silent m1 -> silent m2 -> silent (if b then m1 else m2).
Proof. now destruct b. Qed.

End Silent.

Lemma silent_engine (r : Fault + Value) : silent (engine r).
Proof. intros h. now destruct r. Qed.

Lemma silent_response_json (response : Response) : silent (response_json response).
Proof. now intros h. Qed.

Create HintDb silent.
#[local] Hint Resolve silent_ret silent_throw silent_engine silent_response_json
  : silent.

Ltac silent :=
  repeat first
    [ apply silent_if
    | apply silent_bind; [| intros ?]
    | solve [auto with silent] ].

Lemma readResponse_silent (v : Variant) (response : Response) :
  silent (readResponse v response).
Proof. destruct v; unfold readResponse; silent. Qed.

Lemma perform_create (v : Variant) (apiKey : string) (op : Operation) (text : string) :
  perform (create v apiKey) op text = makeRequestOf v apiKey (promptOf op text).
Proof. now destruct v, op. Qed.

(** [makeRequest], case by case on what [fetch] and the reading of the
    response give. *)
Lemma makeRequest_run (v : Variant) (apiKey prompt : string) (h : Host) :
  let req := requestOf v apiKey prompt h in
  makeRequestOf v apiKey prompt h =
  match host_fetch h req with
  | Throw e => (Throw e, [EvFetch req; EvConsoleError (clientLabel v) e])
  | Ok response =>
      match fst (readResponse v response h) with
      | Ok text => (Ok text, [EvFetch req])
      | Throw e => (Throw e, [EvFetch req; EvConsoleError (clientLabel v) e])
      end
  end.
Proof.
  intros req.
  assert (E : makeRequestOf v apiKey prompt =
              try_catch
                (bodyText <- stringify
                   (match v with
                    | OpenAI => OpenAIProvider.payload prompt
                    | Claude => ClaudeProvider.payload prompt
                    end) ;;
                 response <- fetch
                   (match v with
                    | OpenAI => OpenAIProvider.request apiKey bodyText
                    | Claude => ClaudeProvider.request apiKey bodyText
                    end) ;;
                 readResponse v response)
                (fun error =>
                   console_error (clientLabel v) error ;;; throw error))
    by now destruct v.
  rewrite E. clear E.
  assert (R : forall bodyText,
             bodyText = JSON_stringify h
                          (match v with
                           | OpenAI => OpenAIProvider.payload prompt
                           | Claude => ClaudeProvider.payload prompt
                           end) ->
             match v with
             | OpenAI => OpenAIProvider.request apiKey bodyText
             | Claude => ClaudeProvider.request apiKey bodyText
             end = req)
    by (intros ? ->; now destruct v).
  unfold try_catch, bind at 1 2, stringify, fetch.
  rewrite (R _ eq_refl).
  destruct (host_fetch h req) as [response|e]; simpl; [|reflexivity].
  pose proof (readResponse_silent v response h) as S.
  destruct (readResponse v response h) as [[text|e] t]; simpl in *; now subst.
Qed.

Lemma makeRequest_clientTrace (v : Variant) (apiKey prompt : string) (h : Host) :
  clientTrace (snd (makeRequestOf v apiKey prompt h)) = true.
Proof.
  rewrite makeRequest_run.
  destruct (host_fetch h _) as [response|e]; [|reflexivity].
  now destruct (fst (readResponse v response h)).
Qed.

(* ================================================================= *)
(** ** The manager: lemmas *)

Lemma dispatch_cases (p : AIProvider) (command text : string) (style : option string) :
  (knownCommand command = true
   /\ exists op, dispatch p command text style = perform p op text)
  \/ (knownCommand command = false
      /\ dispatch p command text style = throw (UnknownCommandError command)).
Proof.
  unfold dispatch, knownCommand. simpl.
  destruct (command =? "summarize"); [left; split; [easy|now exists Summarize]|].
  destruct (command =? "improve"); [left; split; [easy|now exists Improve]|].
  destruct (command =? "style");
    [left; split; [easy|now exists (Restyle (orElse style "professional"))]|].
  destruct (command =? "complete"); [left; split; [easy|now exists Complete]|].
  now right.
Qed.

Lemma executeAICommand_clientTrace (this : AIManager) (command text : string)
    (style : option string) (h : Host) :
  Installed this ->
  clientTrace (snd (executeAICommand this command text style h)) = true.
Proof.
  unfold Installed, executeAICommand.
  destruct (provider this) as [p|]; [|reflexivity].
  intros (v & apiKey & ->).
  destruct (dispatch_cases (create v apiKey) command text style)
    as [[_ [op ->]] | [_ ->]]; [|reflexivity].
  rewrite perform_create. unfold try_catch.
  pose proof (makeRequest_clientTrace v apiKey (promptOf op text) h) as T.
  destruct (makeRequestOf v apiKey (promptOf op text) h) as [[r|e] t];
    simpl in *; [exact T|].
  now rewrite clientTrace_app, T.
Qed.

(** Without a provider [executeAICommand] is the bare [throw]. *)
Lemma executeAICommand_without_provider (this : AIManager) (command text : string)
    (style : option string) :
  provider this = None ->
  executeAICommand this command text style = throw ProviderNotConfiguredError.
Proof. intros H. unfold executeAICommand. now rewrite H. Qed.

Lemma setProvider_installed (this : AIManager) (providerName apiKey : string) :
  Installed this -> Installed (snd (setProvider this providerName apiKey)).
Proof.
  unfold setProvider. intros H.
  destruct (_ =? "openai"); [now exists OpenAI, apiKey|].
  destruct (_ =? "claude"); [now exists Claude, apiKey|exact H].
Qed.

Lemma setProvider_keeps_configured (this : AIManager) (providerName apiKey : string) :
  isConfigured this = true ->
  isConfigured (snd (setProvider this providerName apiKey)) = true.
Proof.
  unfold setProvider. intros H.
  destruct (_ =? "openai"); [reflexivity|].
  destruct (_ =? "claude"); [reflexivity|exact H].
Qed.

Lemma call_installed (this : AIManager) (c : ManagerCall) (h : Host) :
  Installed this -> Installed (snd (call this c h)).
Proof.
  intros H. destruct c as [|providerName apiKey|command text style]; simpl.
  - unfold initialize, settings_get.
    destruct (host_settings h "aiConfig") as [cfg|]; [|exact H].
    pose proof (setProvider_installed
                  (mkManager (provider this) (Some cfg))
                  (cfg_provider cfg) (cfg_apiKey cfg) H) as S.
    now destruct (setProvider _ _ _).
  - pose proof (setProvider_installed this providerName apiKey H) as S.
    now destruct (setProvider _ _ _).
  - exact H.
Qed.

(** Every manager reached from [new AIManager()] holds a provider of its
    own making. *)
Lemma run_installed (calls : list (ManagerCall * Host)) (this : AIManager) :
  Installed this -> Installed (run this calls).
Proof.
  revert this. induction calls as [|[c h] rest IH]; intros this H; simpl;
    [exact H|].
  apply IH, call_installed, H.
Qed.

Lemma reachable_installed (calls : list (ManagerCall * Host)) :
  Installed (run aiManager0 calls).
Proof. apply run_installed. exact I. Qed.

Lemma call_keeps_configured (this : AIManager) (c : ManagerCall) (h : Host) :
  isConfigured this = true -> isConfigured (snd (call this c h)) = true.
Proof.
  intros H. destruct c as [|providerName apiKey|command text style]; simpl.
  - unfold initialize, settings_get.
    destruct (host_settings h "aiConfig") as [cfg|]; [|exact H].
    pose proof (setProvider_keeps_configured
                  (mkManager (provider this) (Some cfg))
                  (cfg_provider cfg) (cfg_apiKey cfg) H) as S.
    now destruct (setProvider _ _ _).
  - pose proof (setProvider_keeps_configured this providerName apiKey H) as S.
    now destruct (setProvider _ _ _).
  - exact H.
Qed.

Lemma commands_table (aiManager : AIManager) :
  commands aiManager = map (toCommand aiManager) commandTable.
Proof. reflexivity. Qed.

(* ================================================================= *)
(** ** Properties of the manager *)

(** C1.  With no provider configured, [executeAICommand] fails with the
    provider-not-configured error for every command key, text and style, and
    its trace is empty: no network call, no provider operation, no console
    output.  It never returns normally. *)
Theorem executeAICommand_unconfigured
    (this : AIManager) (command text : string) (style : option string) (h : Host) :
  provider this = None ->
  executeAICommand this command text style h = (Throw ProviderNotConfiguredError, []).
Proof.
  intros H. now rewrite (executeAICommand_without_provider this command text style H).
Qed.

Lemma executeAICommand_unconfigured_witness :
  provider aiManager0 = None
  /\ executeAICommand aiManager0 "summarize" Sample.fox None
       (Sample.host (Ok (Sample.success (Sample.openaiBody "A fox jumps.")))
                    (Some Sample.fox) (Some (mkBlock "b1")))
     = (Throw ProviderNotConfiguredError, []).
Proof.
  split; [reflexivity|].
  apply executeAICommand_unconfigured. reflexivity.
Defined.

(** C3.  A provider name that spells a vendor ("OpenAI", "Claude") in any
    letter casing makes [setProvider] succeed and install a provider whose
    [name] is that vendor; a name that spells neither makes it fail with the
    unsupported-provider error and leaves the manager, hence the provider
    active before, as it was. *)
Theorem setProvider_installs_or_rejects
    (this : AIManager) (providerName apiKey : string) :
  (forall vendor,
      In vendor vendors ->
      sameLettersAnyCase providerName vendor = true ->
      exists p,
        setProvider this providerName apiKey
        = (Ok tt, mkManager (Some p) (config this))
        /\ name p = vendor)
  /\ ((forall vendor, In vendor vendors ->
                      sameLettersAnyCase providerName vendor = false) ->
      setProvider this providerName apiKey
      = (Throw (UnsupportedProviderError providerName), this)).
Proof.
  assert (O : (toLowerCase providerName =? "openai")
              = sameLettersAnyCase providerName "OpenAI")
    by (apply (toLowerCase_sameLetters providerName "OpenAI"); reflexivity).
  assert (C : (toLowerCase providerName =? "claude")
              = sameLettersAnyCase providerName "Claude")
    by (apply (toLowerCase_sameLetters providerName "Claude"); reflexivity).
  unfold setProvider. rewrite O, C. split.
  - intros vendor [<-|[<-|[]]] Hv.
    + rewrite Hv. now exists (OpenAIProvider.new apiKey).
    + rewrite Hv.
      destruct (sameLettersAnyCase providerName "OpenAI") eqn:E.
      * now rewrite (vendors_disjoint _ E) in Hv.
      * now exists (ClaudeProvider.new apiKey).
  - intros Hn.
    rewrite (Hn "OpenAI"), (Hn "Claude"); simpl; auto.
Qed.

Lemma setProvider_installs_or_rejects_witness :
  (exists p,
      setProvider aiManager0 "OPENAI" "sk-test"
      = (Ok tt, mkManager (Some p) (config aiManager0))
      /\ name p = "OpenAI")
  /\ (exists p,
      setProvider aiManager0 "cLaUdE" "sk-test"
      = (Ok tt, mkManager (Some p) (config aiManager0))
      /\ name p = "Claude")
  /\ setProvider (mkManager (Some (OpenAIProvider.new "sk-old")) None)
                 "gemini" "sk-test"
     = (Throw (UnsupportedProviderError "gemini"),
        mkManager (Some (OpenAIProvider.new "sk-old")) None).
Proof.
  split; [|split].
  - apply (proj1 (setProvider_installs_or_rejects aiManager0 "OPENAI" "sk-test"));
      [simpl; auto | reflexivity].
  - apply (proj1 (setProvider_installs_or_rejects aiManager0 "cLaUdE" "sk-test"));
      [simpl; auto | reflexivity].
  - apply (proj2 (setProvider_installs_or_rejects
                    (mkManager (Some (OpenAIProvider.new "sk-old")) None)
                    "gemini" "sk-test")).
    intros vendor [<-|[<-|[]]]; reflexivity.
Defined.

(** C4.  With any provider configured, a command key outside
    summarize, improve, style, complete makes [executeAICommand] fail with
    the unknown-command error.  The outcome and the trace (one console line,
    no network call) are the same whatever the provider's four operations
    are, so none of them is invoked. *)
Theorem unknown_command_rejected
    (p : AIProvider) (cfg : option AIConfig) (command text : string)
    (style : option string) (h : Host) :
  knownCommand command = false ->
  executeAICommand (mkManager (Some p) cfg) command text style h
  = (Throw (UnknownCommandError command),
     [EvConsoleError "AI command execution error:" (UnknownCommandError command)]).
Proof.
  intros H. unfold executeAICommand. simpl.
  destruct (dispatch_cases p command text style) as [[K _] | [_ ->]];
    [congruence | reflexivity].
Qed.

Lemma unknown_command_rejected_witness :
  knownCommand "translate" = false
  /\ executeAICommand (mkManager (Some (ClaudeProvider.new "sk-test")) None)
       "translate" Sample.fox None
       (Sample.host (Ok (Sample.success (Sample.claudeBody "A fox jumps.")))
                    (Some Sample.fox) (Some (mkBlock "b1")))
     = (Throw (UnknownCommandError "translate"),
        [EvConsoleError "AI command execution error:"
                        (UnknownCommandError "translate")]).
Proof.
  split; [reflexivity|].
  apply unknown_command_rejected. reflexivity.
Defined.

(** C5.  [executeAICommand] with key style and no style argument is the
    active provider's [changeWritingStyle] called with the style
    "professional" (inside the manager's log-and-rethrow); with either
    client the request sent carries the restyle prompt for "professional". *)
Theorem style_defaults_to_professional
    (p : AIProvider) (cfg : option AIConfig) (text : string) (h : Host) :
  executeAICommand (mkManager (Some p) cfg) "style" text None h
  = try_catch (changeWritingStyle p text "professional") logAndRethrow h
  /\ forall v apiKey,
      exists rest,
        snd (executeAICommand (mkManager (Some (create v apiKey)) cfg)
                              "style" text None h)
        = EvFetch (requestOf v apiKey (Prompt.restyle text "professional") h)
          :: rest.
Proof.
  split; [reflexivity|].
  intros v apiKey. unfold executeAICommand. simpl.
  change (dispatch (create v apiKey) "style" text None)
    with (perform (create v apiKey) (Restyle "professional") text).
  rewrite perform_create. unfold try_catch. rewrite makeRequest_run. simpl.
  destruct (host_fetch h _) as [response|e]; simpl; [|eauto].
  destruct (fst (readResponse v response h)); simpl; eauto.
Qed.

(** C8.  Over any sequence of calls on the manager ([initialize],
    [setProvider], [executeAICommand], with any arguments, failing or not,
    each on any host), a configured manager stays configured; and a single
    call takes an unconfigured manager to a configured one only if it is an
    [initialize] or a [setProvider] that succeeded. *)
Theorem configured_is_stable
    (calls : list (ManagerCall * Host)) (this : AIManager) :
  (isConfigured this = true -> isConfigured (run this calls) = true)
  /\ forall c h,
      isConfigured this = false ->
      isConfigured (snd (call this c h)) = true ->
      (c = CallInitialize \/ exists providerName apiKey,
                               c = CallSetProvider providerName apiKey)
      /\ fst (call this c h) = true.
Proof.
  split.
  - revert this. induction calls as [|[c h] rest IH]; intros this H; simpl;
      [exact H|].
    apply IH, call_keeps_configured, H.
  - intros c h U K.
    destruct c as [|providerName apiKey|command text style]; simpl in *.
    + split; [now left|].
      unfold initialize, settings_get in *.
      destruct (host_settings h "aiConfig") as [cfg|]; simpl in *; [|congruence].
      unfold setProvider in *.
      destruct (_ =? "openai"); [reflexivity|].
      destruct (_ =? "claude"); [reflexivity|].
      simpl in K. unfold isConfigured in *. simpl in K. congruence.
    + split; [right; now exists providerName, apiKey|].
      unfold setProvider in *.
      destruct (_ =? "openai"); [reflexivity|].
      destruct (_ =? "claude"); [reflexivity|].
      simpl in K. congruence.
    + congruence.
Qed.

Lemma configured_is_stable_witness :
  isConfigured
    (run Sample.claude
         [ (CallSetProvider "gemini" "k", Sample.offline);
           (CallExecuteAICommand "translate" "x" None, Sample.offline);
           (CallExecuteAICommand "summarize" "x" None, Sample.offline);
           (CallInitialize, Sample.offline) ]) = true
  /\ ((CallSetProvider "OpenAI" "k" = CallInitialize
       \/ exists providerName apiKey,
           CallSetProvider "OpenAI" "k" = CallSetProvider providerName apiKey)
      /\ fst (call aiManager0 (CallSetProvider "OpenAI" "k") Sample.offline) = true).
Proof.
  split.
  - apply (proj1 (configured_is_stable _ Sample.claude)). reflexivity.
  - apply (proj2 (configured_is_stable [] aiManager0)); reflexivity.
Defined.

(* ================================================================= *)
(** ** Properties of the provider clients *)

(** C7.  For either provider class and any of its four operations, when the
    vendor's answer to the request has a non-success status the operation
    fails with the error "API request failed: " followed by the response's
    status text, so the message includes the status text; one network call
    was made. *)
Theorem non_success_status_fails
    (v : Variant) (apiKey : string) (op : Operation) (text : string) (h : Host)
    (response : Response) :
  host_fetch h (requestOf v apiKey (promptOf op text) h) = Ok response ->
  ok response = false ->
  exists tr,
    perform (create v apiKey) op text h = (Throw (VendorRequestError response), tr)
    /\ message (VendorRequestError response)
       = "API request failed: " ++ statusText response
    /\ includes (message (VendorRequestError response)) (statusText response) = true
    /\ length (networkCalls tr) = 1.
Proof.
  intros F K. rewrite perform_create, makeRequest_run. cbv zeta. rewrite F.
  assert (R : fst (readResponse v response h) = Throw (VendorRequestError response))
    by (destruct v; unfold readResponse; now rewrite K).
  rewrite R. eexists. split; [reflexivity|].
  split; [reflexivity|]. split; [|reflexivity].
  apply includes_suffix.
Qed.

Lemma non_success_status_fails_witness :
  host_fetch Sample.rejecting
    (requestOf Claude "sk-test" (promptOf Improve Sample.fox) Sample.rejecting)
  = Ok Sample.unauthorized
  /\ ok Sample.unauthorized = false
  /\ exists tr,
      perform (create Claude "sk-test") Improve Sample.fox Sample.rejecting
      = (Throw (VendorRequestError Sample.unauthorized), tr)
      /\ message (VendorRequestError Sample.unauthorized)
         = "API request failed: " ++ statusText Sample.unauthorized
      /\ includes (message (VendorRequestError Sample.unauthorized))
                  (statusText Sample.unauthorized) = true
      /\ length (networkCalls tr) = 1.
Proof.
  split; [reflexivity|]. split; [reflexivity|].
  apply (non_success_status_fails Claude "sk-test" Improve Sample.fox
                                  Sample.rejecting);
    reflexivity.
Defined.

(** What a client returns for a well-formed answer: the OpenAI client the
    trimmed completion, the Claude client the completion as it came. *)
Lemma well_formed_answer_returned
    (v : Variant) (apiKey : string) (op : Operation) (text : string) (h : Host)
    (response : Response) (data : Value) (s : string) :
  host_fetch h (requestOf v apiKey (promptOf op text) h) = Ok response ->
  ok response = true ->
  json response = Ok data ->
  completionOf v data = Some s ->
  perform (create v apiKey) op text h
  = (Ok (VStr (match v with OpenAI => trim s | Claude => s end)),
     [EvFetch (requestOf v apiKey (promptOf op text) h)]).
Proof.
  intros F K J C. rewrite perform_create, makeRequest_run. cbv zeta. rewrite F.
  assert (R : fst (readResponse v response h)
              = Ok (VStr (match v with OpenAI => trim s | Claude => s end))).
  { destruct v; unfold readResponse; rewrite K; simpl;
      unfold bind, response_json; rewrite J;
      destruct data as [| | | | |items|fields]; try discriminate; simpl in *.
    - destruct (lookup "choices" fields) as [| | | | |[|[| | | | | |choice] ?]|];
        try discriminate; simpl.
      destruct (lookup "message" choice) as [| | | | | |msg]; try discriminate; simpl.
      destruct (lookup "content" msg); try discriminate; simpl. congruence.
    - destruct (lookup "content" fields) as [| | | | |[|[| | | | | |first] ?]|];
        try discriminate; simpl.
      destruct (lookup "text" first); try discriminate; simpl. congruence. }
  now rewrite R.
Qed.

(** C2.  The Claude client does not trim: for the well-formed answer whose
    completion is " A fox jumps. " it returns that text with both blanks,
    where the OpenAI client returns "A fox jumps." for the same completion. *)
Theorem claude_completion_not_trimmed :
  fst (summarizeText (ClaudeProvider.new "sk-test") Sample.fox
         (Sample.answering (Sample.claudeBody " A fox jumps. ") None))
  = Ok (VStr " A fox jumps. ")
  /\ trim " A fox jumps. " = "A fox jumps."
  /\ fst (summarizeText (OpenAIProvider.new "sk-test") Sample.fox
            (Sample.answering (Sample.openaiBody " A fox jumps. ") None))
     = Ok (VStr "A fox jumps.").
Proof. repeat split. Qed.

(* ================================================================= *)
(** ** Properties of the command layer *)

Lemma getSelectedText_none (h : Host) :
  noSelection h = true ->
  getSelectedText h = (Throw NoSelectionError, [EvGetSelectedText]).
Proof.
  unfold noSelection, getSelectedText, bind, Editor_getSelectedText.
  destruct (host_selectedText h) as [s|]; [|reflexivity].
  now destruct (truthy s).
Qed.

Lemma getSelectedText_some (h : Host) (text : string) :
  selected h text -> getSelectedText h = (Ok text, [EvGetSelectedText]).
Proof.
  intros [S T]. unfold getSelectedText, bind, Editor_getSelectedText.
  now rewrite S, T.
Qed.

(** An action, case by case, once text is selected. *)
Lemma commandAction_run
    (aiManager : AIManager) (progress command : string) (style : option string)
    (h : Host) (text : string) :
  selected h text ->
  commandAction aiManager progress command style h =
  let start := [EvGetSelectedText; EvShowMsg progress "info"] in
  match executeAICommand aiManager command text style h with
  | (Throw e, tr) =>
      (Ok tt, (start ++ tr ++ [EvShowMsg (message e) "error"])%list)
  | (Ok result, tr) =>
      match host_currentBlock h with
      | None => (Ok tt, (start ++ tr ++ [EvGetCurrentBlock])%list)
      | Some b =>
          (Ok tt, (start ++ tr
                   ++ [EvGetCurrentBlock; EvInsertBlock (uuid b) result true])%list)
      end
  end.
Proof.
  intros S. unfold commandAction, actionBody, try_catch, bind. cbv beta.
  rewrite (getSelectedText_some h text S).
  unfold showMsg, emit, Editor_getCurrentBlock, Editor_insertBlock, ret.
  destruct (executeAICommand aiManager command text style h) as [[result|e] tr];
    [destruct (host_currentBlock h) as [b|]|]; simpl; try reflexivity.
Qed.

Lemma filter_snoc {A} (f : A -> bool) (l : list A) (x : A) :
  f x = false -> filter f (l ++ [x]) = filter f l.
Proof. intros H. rewrite filter_app. simpl. rewrite H. apply app_nil_r. Qed.

(** C9.  When the host reports no selected text ([null] or the empty
    string), every command's action makes exactly two calls: it asks for the
    selection and shows the message "No text selected. Please select some
    text first." at level error.  No request is sent, and the trace is the
    same for every manager: the manager is not invoked. *)
Theorem no_selection_is_reported
    (aiManager : AIManager) (row : CommandRow) (h : Host) :
  In row commandTable ->
  noSelection h = true ->
  action (toCommand aiManager row) h
  = (Ok tt,
     [ EvGetSelectedText;
       EvShowMsg "No text selected. Please select some text first." "error" ]).
Proof.
  intros _ N. simpl. unfold commandAction, actionBody, try_catch.
  now rewrite (bind_throw _ _ _ _ _ (getSelectedText_none h N)).
Qed.

Lemma no_selection_is_reported_witness :
  In (mkRow "formal" "Make text formal" "Changing style..." "style" (Some "formal"))
     commandTable
  /\ noSelection (Sample.host (Ok Sample.unauthorized) (Some EmptyString) None) = true
  /\ action (toCommand Sample.openai
               (mkRow "formal" "Make text formal" "Changing style..." "style"
                      (Some "formal")))
            (Sample.host (Ok Sample.unauthorized) (Some EmptyString) None)
     = (Ok tt,
        [ EvGetSelectedText;
          EvShowMsg "No text selected. Please select some text first." "error" ]).
Proof.
  split; [simpl; auto|]. split; [reflexivity|].
  apply no_selection_is_reported; [simpl; auto | reflexivity].
Defined.

(** C10.  When text is selected, the AI call succeeds and the host has no
    current block, every command's action ends normally after asking for the
    current block: the result is not written anywhere, no block is
    inserted, and the only notification of the whole run is the progress
    message shown before the call, at level info; no error and no success
    notification is shown. *)
Theorem no_current_block_is_silent
    (aiManager : AIManager) (row : CommandRow) (h : Host) (text : string)
    (result : Value) (tr : list Event) :
  In row commandTable ->
  Installed aiManager ->
  selected h text ->
  executeAICommand aiManager (row_command row) text (row_style row) h
  = (Ok result, tr) ->
  host_currentBlock h = None ->
  action (toCommand aiManager row) h
  = (Ok tt,
     ([EvGetSelectedText; EvShowMsg (row_progress row) "info"]
      ++ tr ++ [EvGetCurrentBlock])%list)
  /\ insertions (snd (action (toCommand aiManager row) h)) = []
  /\ notifications (snd (action (toCommand aiManager row) h))
     = [EvShowMsg (row_progress row) "info"]
  /\ outcomeNotifications (snd (action (toCommand aiManager row) h)) = [].
Proof.
  intros _ I S E B. simpl action.
  rewrite (commandAction_run _ _ _ _ _ _ S). cbv zeta. rewrite E, B.
  pose proof (executeAICommand_clientTrace aiManager (row_command row) text
                (row_style row) h I) as T.
  rewrite E in T. simpl in T.
  destruct (clientTrace_quiet tr T) as [Ti Tn].
  split; [reflexivity|]. simpl snd.
  unfold insertions, notifications, outcomeNotifications in *.
  simpl. rewrite !filter_snoc by reflexivity.
  rewrite Ti, Tn. repeat split.
  clear -T. induction tr as [|e tr IH]; [reflexivity|].
  simpl in *. apply andb_true_iff in T as [He Ht].
  destruct e; simpl in *; try discriminate; auto.
Qed.

Lemma no_current_block_is_silent_witness :
  action (toCommand Sample.claude
            (mkRow "summarize" "Summarize text" "Summarizing text..." "summarize" None))
         (Sample.answering (Sample.claudeBody "A fox jumps.") None)
  = (Ok tt,
     ([EvGetSelectedText; EvShowMsg "Summarizing text..." "info"]
      ++ [EvFetch (requestOf Claude "sk-test" (Prompt.summarize Sample.fox)
                             (Sample.answering (Sample.claudeBody "A fox jumps.") None))]
      ++ [EvGetCurrentBlock])%list)
  /\ insertions
       (snd (action (toCommand Sample.claude
                       (mkRow "summarize" "Summarize text" "Summarizing text..."
                              "summarize" None))
                    (Sample.answering (Sample.claudeBody "A fox jumps.") None))) = []
  /\ notifications
       (snd (action (toCommand Sample.claude
                       (mkRow "summarize" "Summarize text" "Summarizing text..."
                              "summarize" None))
                    (Sample.answering (Sample.claudeBody "A fox jumps.") None)))
     = [EvShowMsg "Summarizing text..." "info"]
  /\ outcomeNotifications
       (snd (action (toCommand Sample.claude
                       (mkRow "summarize" "Summarize text" "Summarizing text..."
                              "summarize" None))
                    (Sample.answering (Sample.claudeBody "A fox jumps.") None))) = [].
Proof.
  apply (no_current_block_is_silent Sample.claude
           (mkRow "summarize" "Summarize text" "Summarizing text..." "summarize" None)
           (Sample.answering (Sample.claudeBody "A fox jumps.") None)
           Sample.fox (VStr "A fox jumps.")).
  - simpl; auto.
  - now exists Claude, "sk-test".
  - split; reflexivity.
  - reflexivity.
  - reflexivity.
Defined.

(** C6.  Whenever a command fails (no selection, no provider configured, or
    [executeAICommand] throwing on a vendor status, a network error or a
    malformed answer), its action returns normally to the host, the last
    thing it does is show the error's message at level error, and it
    inserts no block. *)
Theorem failure_is_notified_not_inserted
    (aiManager : AIManager) (row : CommandRow) (h : Host) (e : JsError) :
  In row commandTable ->
  Installed aiManager ->
  Failure aiManager row h e ->
  exists tr,
    action (toCommand aiManager row) h
    = (Ok tt, (tr ++ [EvShowMsg (message e) "error"])%list)
    /\ insertions (tr ++ [EvShowMsg (message e) "error"]) = []
    /\ outcomeNotifications tr = [].
Proof.
  intros _ I F.
  assert (X : forall text e' tr',
             selected h text ->
             executeAICommand aiManager (row_command row) text (row_style row) h
             = (Throw e', tr') ->
             exists tr,
               action (toCommand aiManager row) h
               = (Ok tt, (tr ++ [EvShowMsg (message e') "error"])%list)
               /\ insertions (tr ++ [EvShowMsg (message e') "error"]) = []
               /\ outcomeNotifications tr = []).
  { intros text e' tr' S E. simpl action.
    rewrite (commandAction_run _ _ _ _ _ _ S). cbv zeta. rewrite E.
    pose proof (executeAICommand_clientTrace aiManager (row_command row) text
                  (row_style row) h I) as T.
    rewrite E in T. simpl in T.
    destruct (clientTrace_quiet tr' T) as [Ti _].
    exists ([EvGetSelectedText; EvShowMsg (row_progress row) "info"] ++ tr')%list.
    split; [now rewrite <- app_assoc|].
    unfold insertions, outcomeNotifications in *.
    rewrite filter_snoc by reflexivity. simpl. split; [exact Ti|].
    clear -T. induction tr' as [|x tr' IH]; [reflexivity|].
    simpl in *. apply andb_true_iff in T as [Hx Ht].
    destruct x; simpl in *; try discriminate; auto. }
  destruct F as [N | text S U | text e tr' S E].
  - exists [EvGetSelectedText]. split; [|now split].
    simpl action. unfold commandAction, actionBody, try_catch.
    now rewrite (bind_throw _ _ _ _ _ (getSelectedText_none h N)).
  - apply (X text ProviderNotConfiguredError [] S).
    now rewrite (executeAICommand_without_provider _ _ _ _ U).
  - exact (X text e tr' S E).
Qed.

Lemma failure_is_notified_not_inserted_witness :
  exists tr,
    action (toCommand Sample.openai
              (mkRow "improve" "Improve writing" "Improving text..." "improve" None))
           Sample.rejecting
    = (Ok tt,
       (tr ++ [EvShowMsg (message (VendorRequestError Sample.unauthorized))
                         "error"])%list)
    /\ insertions
         (tr ++ [EvShowMsg (message (VendorRequestError Sample.unauthorized))
                           "error"]) = []
    /\ outcomeNotifications tr = [].
Proof.
  apply (failure_is_notified_not_inserted Sample.openai
           (mkRow "improve" "Improve writing" "Improving text..." "improve" None)
           Sample.rejecting (VendorRequestError Sample.unauthorized)).
  - simpl; auto.
  - now exists OpenAI, "sk-test".
  - eapply (FailExecute _ _ _ Sample.fox).
    + split; reflexivity.
    + reflexivity.
Defined.

(* ================================================================= *)
(** ** Further properties of the manager *)

Lemma setProvider_by_spelling (this : AIManager) (providerName apiKey : string) :
  setProvider this providerName apiKey =
  if sameLettersAnyCase providerName "OpenAI" then
    (Ok tt, mkManager (Some (create OpenAI apiKey)) (config this))
  else if sameLettersAnyCase providerName "Claude" then
    (Ok tt, mkManager (Some (create Claude apiKey)) (config this))
  else (Throw (UnsupportedProviderError providerName), this).
Proof.
  unfold setProvider.
  rewrite <- (toLowerCase_sameLetters providerName "OpenAI") by reflexivity.
  rewrite <- (toLowerCase_sameLetters providerName "Claude") by reflexivity.
  reflexivity.
Qed.

Lemma supported_spelling (providerName : string) :
  supported providerName
  = sameLettersAnyCase providerName "OpenAI"
    || sameLettersAnyCase providerName "Claude".
Proof. unfold supported. simpl. now rewrite orb_false_r. Qed.

(** [initialize], case by case on the stored configuration. *)
Lemma initialize_run (this : AIManager) (h : Host) :
  initialize this h =
  match host_settings h "aiConfig" with
  | None => (Ok tt, this, [EvSettingsGet "aiConfig"])
  | Some cfg =>
      (setProvider (mkManager (provider this) (Some cfg))
                   (cfg_provider cfg) (cfg_apiKey cfg),
       [EvSettingsGet "aiConfig"])
  end.
Proof.
  unfold initialize, settings_get. now destruct (host_settings h "aiConfig").
Qed.

Lemma setProvider_unsupported (this : AIManager) (providerName apiKey : string) :
  supported providerName = false ->
  setProvider this providerName apiKey
  = (Throw (UnsupportedProviderError providerName), this).
Proof.
  intros U. rewrite supported_spelling in U.
  apply orb_false_iff in U as [U1 U2].
  now rewrite setProvider_by_spelling, U1, U2.
Qed.

(** X1.  When the stored configuration names a provider that is neither
    vendor, [initialize] fails with the unsupported-provider error after one
    settings read; the provider active before is kept, and the rejected
    configuration is nevertheless stored in the manager. *)
Theorem initialize_rejects_unsupported
    (this : AIManager) (h : Host) (cfg : AIConfig) :
  host_settings h "aiConfig" = Some cfg ->
  supported (cfg_provider cfg) = false ->
  initialize this h
  = (Throw (UnsupportedProviderError (cfg_provider cfg)),
     mkManager (provider this) (Some cfg),
     [EvSettingsGet "aiConfig"]).
Proof.
  intros S U. rewrite initialize_run, S.
  now rewrite (setProvider_unsupported _ _ _ U).
Qed.

Lemma initialize_rejects_unsupported_witness :
  initialize Sample.claude
    (mkHost (fun _ => Throw (Error "Failed to fetch")) (fun _ => "{}")
            (fun _ => "fault") None None
            (fun _ => Some (mkConfig "gemini" "g-key")))
  = (Throw (UnsupportedProviderError "gemini"),
     mkManager (provider Sample.claude) (Some (mkConfig "gemini" "g-key")),
     [EvSettingsGet "aiConfig"]).
Proof.
  apply (initialize_rejects_unsupported Sample.claude _ (mkConfig "gemini" "g-key"));
    reflexivity.
Defined.

(** X2.  When there is no stored configuration [initialize] succeeds and
    leaves the manager as it was; when the stored configuration names a
    vendor in any letter casing it succeeds, stores the configuration and
    installs that vendor's client with the configured API key. *)
Theorem initialize_installs_configured (this : AIManager) (h : Host) :
  (host_settings h "aiConfig" = None ->
   initialize this h = (Ok tt, this, [EvSettingsGet "aiConfig"]))
  /\ forall cfg v,
      host_settings h "aiConfig" = Some cfg ->
      sameLettersAnyCase (cfg_provider cfg) (vendorName v) = true ->
      initialize this h
      = (Ok tt,
         mkManager (Some (create v (cfg_apiKey cfg))) (Some cfg),
         [EvSettingsGet "aiConfig"]).
Proof.
  split.
  - intros S. now rewrite initialize_run, S.
  - intros cfg v S V. rewrite initialize_run, S.
    rewrite setProvider_by_spelling. destruct v; simpl in V.
    + now rewrite V.
    + destruct (sameLettersAnyCase (cfg_provider cfg) "OpenAI") eqn:E;
        [now rewrite (vendors_disjoint _ E) in V | now rewrite V].
Qed.

Lemma initialize_installs_configured_witness :
  initialize aiManager0 (Sample.host (Ok Sample.unauthorized) None None)
  = (Ok tt,
     mkManager (Some (create OpenAI "sk-test")) (Some (mkConfig "openai" "sk-test")),
     [EvSettingsGet "aiConfig"])
  /\ initialize Sample.claude
       (mkHost (fun _ => Throw (Error "Failed to fetch")) (fun _ => "{}")
               (fun _ => "fault") None None (fun _ => None))
     = (Ok tt, Sample.claude, [EvSettingsGet "aiConfig"]).
Proof.
  split.
  - apply (proj2 (initialize_installs_configured aiManager0
                    (Sample.host (Ok Sample.unauthorized) None None))
                 (mkConfig "openai" "sk-test") OpenAI); reflexivity.
  - apply (proj1 (initialize_installs_configured Sample.claude _)). reflexivity.
Defined.

Lemma dispatch_operation (p : AIProvider) (command text : string)
    (style : option string) :
  dispatch p command text style =
  match operationOf command style with
  | Some op => perform p op text
  | None => throw (UnknownCommandError command)
  end.
Proof.
  unfold dispatch, operationOf.
  destruct (command =? "summarize"); [reflexivity|].
  destruct (command =? "improve"); [reflexivity|].
  destruct (command =? "style"); [reflexivity|].
  now destruct (command =? "complete").
Qed.

(** [executeAICommand] with a provider, case by case on the command key. *)
Lemma executeAICommand_run
    (p : AIProvider) (cfg : option AIConfig) (command text : string)
    (style : option string) (h : Host) :
  executeAICommand (mkManager (Some p) cfg) command text style h =
  match operationOf command style with
  | Some op =>
      match perform p op text h with
      | (Ok result, tr) => (Ok result, tr)
      | (Throw e, tr) =>
          (Throw e, (tr ++ [EvConsoleError "AI command execution error:" e])%list)
      end
  | None =>
      (Throw (UnknownCommandError command),
       [EvConsoleError "AI command execution error:" (UnknownCommandError command)])
  end.
Proof.
  unfold executeAICommand. simpl. rewrite dispatch_operation.
  destruct (operationOf command style) as [op|]; [|reflexivity].
  unfold try_catch. now destruct (perform p op text h) as [[result|e] tr].
Qed.

(** X3.  For a command key of the closed set, [executeAICommand] is the
    provider's operation: a result is returned as it is with nothing added
    to the trace, and a failure is rethrown as the same error after one
    console line. *)
Theorem executeAICommand_propagates
    (p : AIProvider) (cfg : option AIConfig) (command text : string)
    (style : option string) (h : Host) (op : Operation) :
  operationOf command style = Some op ->
  executeAICommand (mkManager (Some p) cfg) command text style h =
  match perform p op text h with
  | (Ok result, tr) => (Ok result, tr)
  | (Throw e, tr) =>
      (Throw e, (tr ++ [EvConsoleError "AI command execution error:" e])%list)
  end.
Proof.
  intros O. now rewrite executeAICommand_run, O.
Qed.

Lemma executeAICommand_propagates_witness :
  executeAICommand Sample.openai "improve" Sample.fox None Sample.rejecting =
  match perform (OpenAIProvider.new "sk-test") Improve Sample.fox Sample.rejecting with
  | (Ok result, tr) => (Ok result, tr)
  | (Throw e, tr) =>
      (Throw e, (tr ++ [EvConsoleError "AI command execution error:" e])%list)
  end.
Proof.
  apply (executeAICommand_propagates (OpenAIProvider.new "sk-test") None
           "improve" Sample.fox None Sample.rejecting Improve).
  reflexivity.
Defined.

(** X4.  With either client, the style command sends the restyle prompt
    for the style argument when that is a non-empty string, and for
    "professional" when the argument is missing or the empty string. *)
Theorem style_argument_or_professional
    (v : Variant) (apiKey : string) (cfg : option AIConfig) (text : string)
    (style : option string) (h : Host) :
  exists rest,
    snd (executeAICommand (mkManager (Some (create v apiKey)) cfg)
                          "style" text style h)
    = EvFetch (requestOf v apiKey
                 (Prompt.restyle text
                    (match style with
                     | Some (String c s) => String c s
                     | _ => "professional"
                     end)) h)
      :: rest.
Proof.
  rewrite executeAICommand_run.
  change (operationOf "style" style)
    with (Some (Restyle (orElse style "professional"))).
  cbv iota. rewrite perform_create, makeRequest_run. cbv zeta.
  assert (E : orElse style "professional"
              = match style with
                | Some (String c s) => String c s
                | _ => "professional"
                end) by (now destruct style as [[|c s]|]).
  simpl promptOf. rewrite E.
  destruct (host_fetch h _) as [response|e]; simpl; [|eauto].
  destruct (fst (readResponse v response h)); simpl; eauto.
Qed.

(* ================================================================= *)
(** ** Further properties of the provider clients *)

Lemma bind_ok_inv {A B} (m : IO A) (k : A -> IO B) (h : Host) (b : B)
    (tr : list Event) :
  bind m k h = (Ok b, tr) ->
  exists a t1 t2, m h = (Ok a, t1) /\ k a h = (Ok b, t2) /\ tr = (t1 ++ t2)%list.
Proof.
  unfold bind. destruct (m h) as [[a|e] t1]; [|discriminate].
  destruct (k a h) as [r t2] eqn:K. intros [= -> <-].
  now exists a, t1, t2.
Qed.

Lemma engine_ok_inv (r : Fault + Value) (h : Host) (v : Value) (tr : list Event) :
  engine r h = (Ok v, tr) -> r = inr v.
Proof. unfold engine. destruct r; [discriminate|]. now intros [= -> _]. Qed.

Lemma name_create (v : Variant) (apiKey : string) :
  name (create v apiKey) = vendorName v.
Proof. now destruct v. Qed.

(** X5.  Every operation of either client makes exactly one network call,
    whatever the outcome: a POST to the vendor's endpoint whose body is the
    serialised payload for the operation's prompt and whose headers carry
    the API key in the vendor's credential header. *)
Theorem one_request_per_operation
    (v : Variant) (apiKey : string) (op : Operation) (text : string) (h : Host) :
  let req := requestOf v apiKey (promptOf op text) h in
  networkCalls (snd (perform (create v apiKey) op text h)) = [EvFetch req]
  /\ method req = "POST"
  /\ In (credentialHeader v apiKey) (headers req)
  /\ body req
     = JSON_stringify h
         (VObj (match v with
                | OpenAI => [("model", VStr "gpt-3.5-turbo")]
                | Claude => [("model", VStr "claude-2")]
                end
                ++ [("messages",
                     VArr [VObj [("role", VStr "user");
                                 ("content", VStr (promptOf op text))]])]
                ++ match v with
                   | OpenAI => [("temperature", VNum "0.7")]
                   | Claude => [("max_tokens", VNum "1024")]
                   end)%list).
Proof.
  intros req. split.
  - rewrite perform_create, makeRequest_run. cbv zeta. fold req.
    destruct (host_fetch h req) as [response|e]; [|reflexivity].
    now destruct (fst (readResponse v response h)).
  - destruct v; simpl; auto.
Qed.

(** X6.  When [fetch] rejects, the operation fails with the rejection
    itself, after logging it once under the client's label. *)
Theorem network_error_propagates
    (v : Variant) (apiKey : string) (op : Operation) (text : string) (h : Host)
    (e : JsError) :
  host_fetch h (requestOf v apiKey (promptOf op text) h) = Throw e ->
  perform (create v apiKey) op text h
  = (Throw e,
     [ EvFetch (requestOf v apiKey (promptOf op text) h);
       EvConsoleError (clientLabel v) e ]).
Proof.
  intros F. rewrite perform_create, makeRequest_run. cbv zeta. now rewrite F.
Qed.

Lemma network_error_propagates_witness :
  perform (create Claude "sk-test") Complete Sample.fox Sample.offline
  = (Throw (Error "Failed to fetch"),
     [ EvFetch (requestOf Claude "sk-test" (promptOf Complete Sample.fox)
                          Sample.offline);
       EvConsoleError (clientLabel Claude) (Error "Failed to fetch") ]).
Proof.
  apply (network_error_propagates Claude "sk-test" Complete Sample.fox
                                  Sample.offline).
  reflexivity.
Defined.

(** X7.  When the vendor answers with a success status but a body that is
    not JSON, the operation fails with the error [json()] rejected with. *)
Theorem unreadable_body_propagates
    (v : Variant) (apiKey : string) (op : Operation) (text : string) (h : Host)
    (response : Response) (e : JsError) :
  host_fetch h (requestOf v apiKey (promptOf op text) h) = Ok response ->
  ok response = true ->
  json response = Throw e ->
  perform (create v apiKey) op text h
  = (Throw e,
     [ EvFetch (requestOf v apiKey (promptOf op text) h);
       EvConsoleError (clientLabel v) e ]).
Proof.
  intros F K J. rewrite perform_create, makeRequest_run. cbv zeta. rewrite F.
  assert (R : fst (readResponse v response h) = Throw e)
    by (destruct v; unfold readResponse; rewrite K; simpl;
        unfold bind, response_json; now rewrite J).
  now rewrite R.
Qed.

Lemma unreadable_body_propagates_witness :
  perform (create OpenAI "sk-test") Summarize Sample.fox
    (Sample.host (Ok (mkResponse true "OK"
                        (Throw (mkError "SyntaxError" "Unexpected token <"))))
                 (Some Sample.fox) None)
  = (Throw (mkError "SyntaxError" "Unexpected token <"),
     [ EvFetch (requestOf OpenAI "sk-test" (promptOf Summarize Sample.fox)
                  (Sample.host (Ok (mkResponse true "OK"
                        (Throw (mkError "SyntaxError" "Unexpected token <"))))
                     (Some Sample.fox) None));
       EvConsoleError (clientLabel OpenAI)
                      (mkError "SyntaxError" "Unexpected token <") ]).
Proof.
  apply (unreadable_body_propagates OpenAI "sk-test" Summarize Sample.fox _
           (mkResponse true "OK"
              (Throw (mkError "SyntaxError" "Unexpected token <"))));
    reflexivity.
Defined.

(** X8.  Whatever the vendor answers, an operation of the OpenAI client
    that succeeds returns a string, and that string has no white space at
    either end. *)
Theorem openai_result_is_trimmed_string
    (apiKey : string) (op : Operation) (text : string) (h : Host)
    (result : Value) (tr : list Event) :
  perform (create OpenAI apiKey) op text h = (Ok result, tr) ->
  exists s,
    result = VStr (trim s)
    /\ match firstChar (trim s), lastChar (trim s) with
       | Some c, Some d => isWhiteSpace c = false /\ isWhiteSpace d = false
       | None, None => True
       | _, _ => False
       end.
Proof.
  rewrite perform_create, makeRequest_run. cbv zeta.
  destruct (host_fetch h _) as [response|e]; [|discriminate].
  destruct (readResponse OpenAI response h) as [[v|e] t] eqn:R; simpl;
    [|discriminate].
  intros [= -> _].
  unfold readResponse in R. destruct (negb (ok response)); [discriminate|].
  apply bind_ok_inv in R as (data & ? & ? & _ & R & _).
  apply bind_ok_inv in R as (choices & ? & ? & _ & R & _).
  apply bind_ok_inv in R as (choice & ? & ? & _ & R & _).
  apply bind_ok_inv in R as (msg & ? & ? & _ & R & _).
  apply bind_ok_inv in R as (content & ? & ? & _ & R & _).
  apply engine_ok_inv in R. unfold callTrim in R.
  destruct content; try discriminate.
  injection R as <-. exists s. split; [reflexivity | apply trim_edges].
Qed.

Lemma openai_result_is_trimmed_string_witness :
  exists s,
    VStr "A fox jumps." = VStr (trim s)
    /\ match firstChar (trim s), lastChar (trim s) with
       | Some c, Some d => isWhiteSpace c = false /\ isWhiteSpace d = false
       | None, None => True
       | _, _ => False
       end.
Proof.
  apply (openai_result_is_trimmed_string "sk-test" Summarize Sample.fox
           (Sample.answering (Sample.openaiBody "  A fox jumps. ") None)
           (VStr "A fox jumps.")
           [EvFetch (requestOf OpenAI "sk-test" (promptOf Summarize Sample.fox)
                       (Sample.answering (Sample.openaiBody "  A fox jumps. ")
                                         None))]).
  reflexivity.
Defined.

(** X9.  The Claude client returns whatever sits under [content[0].text]
    of a success answer without checking it: a missing [text] makes the
    operation succeed with [undefined], a number is returned as a number. *)
Theorem claude_result_is_unchecked
    (apiKey : string) (op : Operation) (text : string) (h : Host)
    (response : Response) (fields first : list (string * Value))
    (others : list Value) :
  host_fetch h (requestOf Claude apiKey (promptOf op text) h) = Ok response ->
  ok response = true ->
  json response = Ok (VObj fields) ->
  lookup "content" fields = VArr (VObj first :: others) ->
  perform (create Claude apiKey) op text h
  = (Ok (lookup "text" first),
     [EvFetch (requestOf Claude apiKey (promptOf op text) h)]).
Proof.
  intros F K J C. rewrite perform_create, makeRequest_run. cbv zeta. rewrite F.
  assert (R : fst (readResponse Claude response h) = Ok (lookup "text" first)).
  { unfold readResponse. rewrite K. simpl. unfold bind, response_json.
    rewrite J. simpl. now rewrite C. }
  now rewrite R.
Qed.

Lemma claude_result_is_unchecked_witness :
  perform (create Claude "sk-test") Summarize Sample.fox
    (Sample.answering (VObj [("content", VArr [VObj [("type", VStr "text")]])]) None)
  = (Ok VUndefined,
     [EvFetch (requestOf Claude "sk-test" (promptOf Summarize Sample.fox)
                 (Sample.answering
                    (VObj [("content", VArr [VObj [("type", VStr "text")]])])
                    None))]).
Proof.
  apply (claude_result_is_unchecked "sk-test" Summarize Sample.fox _
           (Sample.success (VObj [("content", VArr [VObj [("type", VStr "text")]])]))
           [("content", VArr [VObj [("type", VStr "text")]])]
           [("type", VStr "text")] []);
    reflexivity.
Defined.

(* ================================================================= *)
(** ** Further properties of the command layer *)

(** X10.  When text is selected, the AI call succeeds and a block is
    current, a command's action inserts exactly one block, after the
    current block and holding the result as returned, and shows no error or
    success notification. *)
Theorem success_inserts_after_current_block
    (aiManager : AIManager) (row : CommandRow) (h : Host) (text : string)
    (result : Value) (tr : list Event) (b : Block) :
  In row commandTable ->
  Installed aiManager ->
  selected h text ->
  executeAICommand aiManager (row_command row) text (row_style row) h
  = (Ok result, tr) ->
  host_currentBlock h = Some b ->
  action (toCommand aiManager row) h
  = (Ok tt,
     ([EvGetSelectedText; EvShowMsg (row_progress row) "info"]
      ++ tr
      ++ [EvGetCurrentBlock; EvInsertBlock (uuid b) result true])%list)
  /\ insertions (snd (action (toCommand aiManager row) h))
     = [EvInsertBlock (uuid b) result true]
  /\ outcomeNotifications (snd (action (toCommand aiManager row) h)) = [].
Proof.
  intros _ I S E B. simpl action.
  rewrite (commandAction_run _ _ _ _ _ _ S). cbv zeta. rewrite E, B.
  pose proof (executeAICommand_clientTrace aiManager (row_command row) text
                (row_style row) h I) as T.
  rewrite E in T. simpl in T.
  split; [reflexivity|]. simpl snd.
  unfold insertions, outcomeNotifications. simpl.
  rewrite !filter_app. simpl.
  assert (Q : filter isInsertBlock tr = [] /\ filter isOutcomeMsg tr = []).
  { clear -T. induction tr as [|x tr IH]; [now split|].
    simpl in T. apply andb_true_iff in T as [Hx Ht].
    destruct (IH Ht) as [Qi Qo].
    destruct x; simpl in *; try discriminate; now split. }
  destruct Q as [-> ->]. now split.
Qed.

Lemma success_inserts_after_current_block_witness :
  action (toCommand Sample.claude
            (mkRow "complete" "Complete text" "Completing text..." "complete" None))
         (Sample.answering (Sample.claudeBody "over the lazy dog.")
                           (Some (mkBlock "b7")))
  = (Ok tt,
     ([EvGetSelectedText; EvShowMsg "Completing text..." "info"]
      ++ [EvFetch (requestOf Claude "sk-test" (Prompt.complete Sample.fox)
                     (Sample.answering (Sample.claudeBody "over the lazy dog.")
                                       (Some (mkBlock "b7"))))]
      ++ [EvGetCurrentBlock;
          EvInsertBlock "b7" (VStr "over the lazy dog.") true])%list)
  /\ insertions
       (snd (action (toCommand Sample.claude
                       (mkRow "complete" "Complete text" "Completing text..."
                              "complete" None))
                    (Sample.answering (Sample.claudeBody "over the lazy dog.")
                                      (Some (mkBlock "b7")))))
     = [EvInsertBlock "b7" (VStr "over the lazy dog.") true]
  /\ outcomeNotifications
       (snd (action (toCommand Sample.claude
                       (mkRow "complete" "Complete text" "Completing text..."
                              "complete" None))
                    (Sample.answering (Sample.claudeBody "over the lazy dog.")
                                      (Some (mkBlock "b7"))))) = [].
Proof.
  apply (success_inserts_after_current_block Sample.claude
           (mkRow "complete" "Complete text" "Completing text..." "complete" None)
           (Sample.answering (Sample.claudeBody "over the lazy dog.")
                             (Some (mkBlock "b7")))
           Sample.fox (VStr "over the lazy dog.")
           [EvFetch (requestOf Claude "sk-test" (Prompt.complete Sample.fox)
                       (Sample.answering (Sample.claudeBody "over the lazy dog.")
                                         (Some (mkBlock "b7"))))]
           (mkBlock "b7")).
  - simpl; auto.
  - now exists Claude, "sk-test".
  - split; reflexivity.
  - reflexivity.
  - reflexivity.
Defined.

(** X11.  Every registered command passes [executeAICommand] a key of the
    closed set: summarize, improve and complete select the operation of the
    same name, and the formal command the restyle operation with the style
    "formal".  No action can run into the unknown-command error. *)
Theorem registered_commands_are_known (row : CommandRow) :
  In row commandTable ->
  knownCommand (row_command row) = true
  /\ operationOf (row_command row) (row_style row)
     = Some (if row_key row =? "summarize" then Summarize
             else if row_key row =? "improve" then Improve
             else if row_key row =? "formal" then Restyle "formal"
             else Complete).
Proof.
  intros [<-|[<-|[<-|[<-|[]]]]]; now split.
Qed.

Lemma registered_commands_are_known_witness :
  knownCommand "style" = true
  /\ operationOf "style" (Some "formal") = Some (Restyle "formal").
Proof.
  apply (registered_commands_are_known
           (mkRow "formal" "Make text formal" "Changing style..." "style"
                  (Some "formal"))).
  simpl; auto.
Defined.

(** X12.  End to end: with a client of either vendor installed, text
    selected, a current block and a well-formed success answer to the
    request of the command's operation, the action makes five calls in
    order (read the selection, show the progress message, send the request,
    read the current block, insert after it) and the inserted content is
    the completion, trimmed by the OpenAI client and as it came from the
    Claude client. *)
Theorem completion_is_inserted
    (v : Variant) (apiKey : string) (cfg : option AIConfig) (row : CommandRow)
    (op : Operation) (h : Host) (text : string) (response : Response)
    (data : Value) (s : string) (b : Block) :
  In row commandTable ->
  operationOf (row_command row) (row_style row) = Some op ->
  selected h text ->
  host_fetch h (requestOf v apiKey (promptOf op text) h) = Ok response ->
  ok response = true ->
  json response = Ok data ->
  completionOf v data = Some s ->
  host_currentBlock h = Some b ->
  action (toCommand (mkManager (Some (create v apiKey)) cfg) row) h
  = (Ok tt,
     [ EvGetSelectedText;
       EvShowMsg (row_progress row) "info";
       EvFetch (requestOf v apiKey (promptOf op text) h);
       EvGetCurrentBlock;
       EvInsertBlock (uuid b)
                     (VStr (match v with OpenAI => trim s | Claude => s end))
                     true ]).
Proof.
  intros _ O S F K J C B. simpl action.
  rewrite (commandAction_run _ _ _ _ _ _ S). cbv zeta.
  rewrite executeAICommand_run, O.
  rewrite (well_formed_answer_returned v apiKey op text h response data s F K J C).
  now rewrite B.
Qed.

Lemma completion_is_inserted_witness :
  action (toCommand Sample.openai
            (mkRow "summarize" "Summarize text" "Summarizing text..." "summarize"
                   None))
         (Sample.answering (Sample.openaiBody "A fox jumps. ") (Some (mkBlock "b1")))
  = (Ok tt,
     [ EvGetSelectedText;
       EvShowMsg "Summarizing text..." "info";
       EvFetch (requestOf OpenAI "sk-test" (promptOf Summarize Sample.fox)
                  (Sample.answering (Sample.openaiBody "A fox jumps. ")
                                    (Some (mkBlock "b1"))));
       EvGetCurrentBlock;
       EvInsertBlock "b1" (VStr (trim "A fox jumps. ")) true ]).
Proof.
  apply (completion_is_inserted OpenAI "sk-test" None
           (mkRow "summarize" "Summarize text" "Summarizing text..." "summarize"
                  None)
           Summarize
           (Sample.answering (Sample.openaiBody "A fox jumps. ") (Some (mkBlock "b1")))
           Sample.fox (Sample.success (Sample.openaiBody "A fox jumps. "))
           (Sample.openaiBody "A fox jumps. ") "A fox jumps. " (mkBlock "b1")).
  - simpl; auto.
  - reflexivity.
  - split; reflexivity.
  - reflexivity.
  - reflexivity.
  - reflexivity.
  - reflexivity.
  - reflexivity.
Defined.

(** X13.  End to end on a network failure: when [fetch] rejects, the action
    still returns normally; the rejection is logged twice, by the client
    and by the manager, nothing is inserted, and the rejection's message is
    shown at level error after the progress message. *)
Theorem network_failure_is_reported
    (v : Variant) (apiKey : string) (cfg : option AIConfig) (row : CommandRow)
    (op : Operation) (h : Host) (text : string) (e : JsError) :
  In row commandTable ->
  operationOf (row_command row) (row_style row) = Some op ->
  selected h text ->
  host_fetch h (requestOf v apiKey (promptOf op text) h) = Throw e ->
  action (toCommand (mkManager (Some (create v apiKey)) cfg) row) h
  = (Ok tt,
     [ EvGetSelectedText;
       EvShowMsg (row_progress row) "info";
       EvFetch (requestOf v apiKey (promptOf op text) h);
       EvConsoleError (clientLabel v) e;
       EvConsoleError "AI command execution error:" e;
       EvShowMsg (message e) "error" ]).
Proof.
  intros _ O S F. simpl action.
  rewrite (commandAction_run _ _ _ _ _ _ S). cbv zeta.
  rewrite executeAICommand_run, O.
  rewrite perform_create, makeRequest_run. cbv zeta. now rewrite F.
Qed.

Lemma network_failure_is_reported_witness :
  action (toCommand Sample.claude
            (mkRow "formal" "Make text formal" "Changing style..." "style"
                   (Some "formal")))
         (Sample.host (Throw (mkError "TypeError" "Failed to fetch"))
                      (Some Sample.fox) (Some (mkBlock "b1")))
  = (Ok tt,
     [ EvGetSelectedText;
       EvShowMsg "Changing style..." "info";
       EvFetch (requestOf Claude "sk-test" (promptOf (Restyle "formal") Sample.fox)
                  (Sample.host (Throw (mkError "TypeError" "Failed to fetch"))
                               (Some Sample.fox) (Some (mkBlock "b1"))));
       EvConsoleError (clientLabel Claude) (mkError "TypeError" "Failed to fetch");
       EvConsoleError "AI command execution error:"
                      (mkError "TypeError" "Failed to fetch");
       EvShowMsg "Failed to fetch" "error" ]).
Proof.
  apply (network_failure_is_reported Claude "sk-test" None
           (mkRow "formal" "Make text formal" "Changing style..." "style"
                  (Some "formal"))
           (Restyle "formal")
           (Sample.host (Throw (mkError "TypeError" "Failed to fetch"))
                        (Some Sample.fox) (Some (mkBlock "b1")))
           Sample.fox (mkError "TypeError" "Failed to fetch")).
  - simpl; auto.
  - reflexivity.
  - split; reflexivity.
  - reflexivity.
Defined.

(* ================================================================= *)
(** ** Properties of the start-up *)

Lemma registered_app (t1 t2 : list StartupEvent) :
  registered (t1 ++ t2) = (registered t1 ++ registered t2)%list.
Proof.
  induction t1 as [|e t1 IH]; [reflexivity|].
  destruct e; simpl; now rewrite ?IH.
Qed.

Lemma registered_host (tr : list Event) : registered (map SuHost tr) = [].
Proof. induction tr as [|e tr IH]; [reflexivity | exact IH]. Qed.

Lemma registered_commands (cmds : list Command) :
  registered (registerCommands cmds) = map (fun cmd => (label cmd, action cmd)) cmds.
Proof.
  induction cmds as [|cmd cmds IH]; [reflexivity|]. simpl. now rewrite IH.
Qed.

Lemma uiItems_host (tr : list Event) : filter isRegisterUIItem (map SuHost tr) = [].
Proof. induction tr as [|e tr IH]; [reflexivity | exact IH]. Qed.

Lemma uiItems_commands (cmds : list Command) :
  filter isRegisterUIItem (registerCommands cmds) = [].
Proof. induction cmds as [|cmd cmds IH]; [reflexivity | exact IH]. Qed.

(** X14.  When the stored configuration names a provider that is neither
    vendor, start-up stops at [initialize]: the settings schema has been
    declared and the settings read, the error goes to the console, and no
    slash command, no settings model, no toolbar item and no style is
    registered. *)
Theorem startup_aborts_on_unsupported
    (pluginId : string) (aiManager : AIManager) (h : Host) (cfg : AIConfig) :
  host_settings h "aiConfig" = Some cfg ->
  supported (cfg_provider cfg) = false ->
  ready_main pluginId aiManager h
  = (mkManager (provider aiManager) (Some cfg),
     [ SuConsoleInfo ("#" ++ pluginId ++ ": MAIN");
       SuUseSettingsSchema settingsSchema;
       SuHost (EvSettingsGet "aiConfig");
       SuConsoleError (UnsupportedProviderError (cfg_provider cfg)) ]).
Proof.
  intros S U. unfold ready_main, main.
  now rewrite initialize_run, S, (setProvider_unsupported _ _ _ U).
Qed.

Lemma startup_aborts_on_unsupported_witness :
  ready_main "ai-helper" aiManager0
    (mkHost (fun _ => Throw (Error "Failed to fetch")) (fun _ => "{}")
            (fun _ => "fault") None None
            (fun _ => Some (mkConfig "gemini" "g-key")))
  = (mkManager (provider aiManager0) (Some (mkConfig "gemini" "g-key")),
     [ SuConsoleInfo ("#" ++ "ai-helper" ++ ": MAIN");
       SuUseSettingsSchema settingsSchema;
       SuHost (EvSettingsGet "aiConfig");
       SuConsoleError (UnsupportedProviderError (cfg_provider
                                                   (mkConfig "gemini" "g-key"))) ]).
Proof.
  apply (startup_aborts_on_unsupported "ai-helper" aiManager0 _
           (mkConfig "gemini" "g-key"));
    reflexivity.
Defined.

(** X15.  When [initialize] succeeds, [main] succeeds, leaves the manager
    as [initialize] made it, and registers the four slash commands, in the
    order summarize, improve, formal, complete, each label bound to the
    action of that command, and one toolbar item. *)
Theorem startup_registers_commands
    (pluginId : string) (aiManager : AIManager) (h : Host) :
  succeeded (fst (fst (initialize aiManager h))) = true ->
  fst (fst (main pluginId aiManager h)) = Ok tt
  /\ snd (fst (main pluginId aiManager h)) = snd (fst (initialize aiManager h))
  /\ registered (snd (main pluginId aiManager h))
     = map (fun cmd => (label cmd, action cmd))
           (commands (snd (fst (initialize aiManager h))))
  /\ map fst (registered (snd (main pluginId aiManager h)))
     = ["Summarize text"; "Improve writing"; "Make text formal"; "Complete text"]
  /\ filter isRegisterUIItem (snd (main pluginId aiManager h))
     = [SuRegisterUIItem "toolbar" toolbarIconClass].
Proof.
  unfold main, registerSettings.
  destruct (initialize aiManager h) as [[[[]|e] aiManager'] tr];
    cbn [fst snd succeeded]; [intros _ | discriminate].
  rewrite !registered_app, registered_host, registered_commands.
  rewrite !filter_app, uiItems_host, uiItems_commands.
  repeat split.
Qed.

Lemma startup_registers_commands_witness :
  succeeded (fst (fst (initialize aiManager0
                         (Sample.host (Ok Sample.unauthorized) None None)))) = true
  /\ map fst (registered (snd (main "ai-helper" aiManager0
                                 (Sample.host (Ok Sample.unauthorized) None None))))
     = ["Summarize text"; "Improve writing"; "Make text formal"; "Complete text"].
Proof.
  split; [reflexivity|].
  apply (startup_registers_commands "ai-helper" aiManager0
           (Sample.host (Ok Sample.unauthorized) None None)).
  reflexivity.
Defined.

(** X16.  After a start-up with no stored configuration the commands are
    registered but the manager has no provider: every registered action,
    run with text selected, shows its progress message and then the
    provider-not-configured message at level error, and makes no other
    call; nothing is sent and nothing is inserted. *)
Theorem unconfigured_startup_commands_report
    (pluginId : string) (h0 : Host) (lbl : string) (act : IO unit) (h : Host)
    (text : string) :
  host_settings h0 "aiConfig" = None ->
  In (lbl, act) (registered (snd (main pluginId aiManager0 h0))) ->
  selected h text ->
  exists progress,
    act h
    = (Ok tt,
       [ EvGetSelectedText;
         EvShowMsg progress "info";
         EvShowMsg "AI provider not configured. Please set up your API key in settings."
                   "error" ]).
Proof.
  intros S0 R S.
  unfold main in R. rewrite initialize_run, S0 in R. simpl in R.
  assert (X : forall progress command style,
             commandAction aiManager0 progress command style h
             = (Ok tt,
                [ EvGetSelectedText;
                  EvShowMsg progress "info";
                  EvShowMsg (message ProviderNotConfiguredError) "error" ])).
  { intros progress command style.
    rewrite (commandAction_run _ _ _ _ _ _ S). reflexivity. }
  destruct R as [[= <- <-]|[[= <- <-]|[[= <- <-]|[[= <- <-]|[]]]]];
    eexists; apply X.
Qed.

Lemma unconfigured_startup_commands_report_witness :
  exists progress,
    commandAction aiManager0 "Improving text..." "improve" None
      (Sample.host (Ok Sample.unauthorized) (Some Sample.fox) None)
    = (Ok tt,
       [ EvGetSelectedText;
         EvShowMsg progress "info";
         EvShowMsg "AI provider not configured. Please set up your API key in settings."
                   "error" ]).
Proof.
  apply (unconfigured_startup_commands_report "ai-helper"
           (mkHost (fun _ => Throw (Error "Failed to fetch")) (fun _ => "{}")
                   (fun _ => "fault") None None (fun _ => None))
           "Improve writing"
           (commandAction aiManager0 "Improving text..." "improve" None)
           (Sample.host (Ok Sample.unauthorized) (Some Sample.fox) None)
           Sample.fox).
  - reflexivity.
  - simpl. right. left. reflexivity.
  - split; reflexivity.
Defined.

(* ================================================================= *)
(** ** Properties of the first variant *)

Lemma messageOr_truthy (e : JsError) (fallback : string) :
  truthy fallback = true -> truthy (Basic.messageOr e fallback) = true.
Proof.
  intros F. unfold Basic.messageOr.
  now destruct (truthy (message e)) eqn:E.
Qed.

Lemma basic_makeRequest_run (apiKey prompt : string) (h : Host) :
  Basic.makeRequest apiKey prompt h
  = match OpenAIProvider.makeRequest apiKey prompt h with
    | (Ok text, tr) => (Ok text, tr)
    | (Throw e, tr) =>
        (Throw (Error (Basic.messageOr e "Unknown API error")), tr)
    end.
Proof.
  unfold Basic.makeRequest, OpenAIProvider.makeRequest, try_catch.
  match goal with
  | |- context [match ?m h with _ => _ end] => destruct (m h) as [[text|e] t]
  end; reflexivity.
Qed.

(** X17.  The client of the first variant behaves as the OpenAI client of
    the second (same result, same request, same console line) except for
    the error it throws: a fresh [Error] carrying the original message, or
    "Unknown API error" when that message is empty.  Hence a failure of
    this client always has a non-empty message. *)
Theorem basic_client_replaces_errors (apiKey prompt : string) (h : Host) :
  Basic.makeRequest apiKey prompt h
  = match OpenAIProvider.makeRequest apiKey prompt h with
    | (Ok text, tr) => (Ok text, tr)
    | (Throw e, tr) =>
        (Throw (Error (if truthy (message e) then message e
                       else "Unknown API error")), tr)
    end
  /\ forall e tr,
      Basic.makeRequest apiKey prompt h = (Throw e, tr) ->
      errName e = "Error" /\ truthy (message e) = true.
Proof.
  pose proof (basic_makeRequest_run apiKey prompt h) as E.
  split; [exact E|].
  intros e tr. rewrite E.
  destruct (OpenAIProvider.makeRequest apiKey prompt h) as [[text|e0] t];
    [discriminate|].
  intros [= <- _]. split; [reflexivity|].
  now apply messageOr_truthy.
Qed.

Lemma basic_client_replaces_errors_witness :
  Basic.makeRequest "sk-test" "Hello"
    (Sample.host (Throw (mkError "TypeError" EmptyString)) None None)
  = (Throw (Error "Unknown API error"),
     [ EvFetch (OpenAIProvider.request "sk-test" "{}");
       EvConsoleError "OpenAI API error:" (mkError "TypeError" EmptyString) ])
  /\ errName (Error "Unknown API error") = "Error"
  /\ truthy (message (Error "Unknown API error")) = true.
Proof.
  split; [reflexivity|].
  apply (proj2 (basic_client_replaces_errors "sk-test" "Hello"
                  (Sample.host (Throw (mkError "TypeError" EmptyString)) None None))
               (Error "Unknown API error")
               [ EvFetch (OpenAIProvider.request "sk-test" "{}");
                 EvConsoleError "OpenAI API error:"
                                (mkError "TypeError" EmptyString) ]).
  reflexivity.
Defined.

(** X18.  The first variant knows one vendor: a provider name spelling
    "Claude", which the second variant installs, is refused with the
    unsupported-provider error and leaves the manager unchanged; a name
    spelling "OpenAI" installs the client with the given key. *)
Theorem basic_setProvider_openai_only
    (this : AIManager) (providerName apiKey : string) :
  (sameLettersAnyCase providerName "OpenAI" = true ->
   Basic.setProvider this providerName apiKey
   = (Ok tt, mkManager (Some (Basic.new apiKey)) (config this)))
  /\ (sameLettersAnyCase providerName "Claude" = true ->
      Basic.setProvider this providerName apiKey
      = (Throw (UnsupportedProviderError providerName), this)
      /\ fst (setProvider this providerName apiKey) = Ok tt).
Proof.
  unfold Basic.setProvider.
  pose proof (toLowerCase_sameLetters providerName "OpenAI" eq_refl) as E.
  change (toLowerCase "OpenAI") with "openai" in E. rewrite E. clear E.
  split.
  - now intros ->.
  - intros C.
    destruct (sameLettersAnyCase providerName "OpenAI") eqn:O;
      [now rewrite (vendors_disjoint _ O) in C|].
    split; [reflexivity|].
    now rewrite setProvider_by_spelling, O, C.
Qed.

Lemma basic_setProvider_openai_only_witness :
  Basic.setProvider aiManager0 "OpenAI" "sk-test"
  = (Ok tt, mkManager (Some (Basic.new "sk-test")) (config aiManager0))
  /\ Basic.setProvider aiManager0 "CLAUDE" "sk-test"
     = (Throw (UnsupportedProviderError "CLAUDE"), aiManager0)
  /\ fst (setProvider aiManager0 "CLAUDE" "sk-test") = Ok tt.
Proof.
  split.
  - apply (proj1 (basic_setProvider_openai_only aiManager0 "OpenAI" "sk-test")).
    reflexivity.
  - apply (proj2 (basic_setProvider_openai_only aiManager0 "CLAUDE" "sk-test")).
    reflexivity.
Defined.

(** X19.  Every error [executeAICommand] of the first variant throws, with
    or without a provider and whatever the provider does, is a plain
    [Error] with a non-empty message. *)
Theorem basic_errors_have_messages
    (this : AIManager) (command text : string) (style : option string) (h : Host)
    (e : JsError) (tr : list Event) :
  Basic.executeAICommand this command text style h = (Throw e, tr) ->
  errName e = "Error" /\ truthy (message e) = true.
Proof.
  unfold Basic.executeAICommand.
  destruct (provider this) as [p|]; [|now intros [= <- _]].
  unfold try_catch, bind, console_error, emit, throw.
  destruct (dispatch p command text style h) as [[v|e0] t]; [discriminate|].
  intros [= <- _]. split; [reflexivity|]. now apply messageOr_truthy.
Qed.

Lemma basic_errors_have_messages_witness :
  errName (Error "Unknown API error") = "Error"
  /\ truthy (message (Error "Unknown API error")) = true.
Proof.
  apply (basic_errors_have_messages
           (mkManager (Some (Basic.new "sk-test")) None)
           "summarize" Sample.fox None
           (Sample.host (Throw (mkError "TypeError" EmptyString))
                        (Some Sample.fox) None)
           (Error "Unknown API error")
           [ EvFetch (OpenAIProvider.request "sk-test" "{}");
             EvConsoleError "OpenAI API error:" (mkError "TypeError" EmptyString);
             EvConsoleError "AI command execution error:"
                            (Error "Unknown API error") ]).
  reflexivity.
Defined.

Lemma basic_perform (apiKey : string) (op : Operation) (text : string) :
  perform (Basic.new apiKey) op text = Basic.makeRequest apiKey (promptOf op text).
Proof. now destruct op. Qed.

Lemma basic_executeAICommand_clientTrace (this : AIManager) (command text : string)
    (style : option string) (h : Host) :
  Basic.Installed this ->
  clientTrace (snd (Basic.executeAICommand this command text style h)) = true.
Proof.
  unfold Basic.Installed, Basic.executeAICommand.
  destruct (provider this) as [p|]; [|reflexivity].
  intros [apiKey ->]. rewrite dispatch_operation.
  destruct (operationOf command style) as [op|]; [|reflexivity].
  rewrite basic_perform. unfold try_catch. rewrite basic_makeRequest_run.
  pose proof (makeRequest_clientTrace OpenAI apiKey (promptOf op text) h) as T.
  simpl makeRequestOf in T.
  destruct (OpenAIProvider.makeRequest apiKey (promptOf op text) h) as [[r|e] t];
    simpl in *; [exact T|].
  now rewrite clientTrace_app, T.
Qed.

(** The action of the first variant, case by case. *)
Lemma basic_summarizeAction_run (apis : Basic.Apis) (aiManager : AIManager)
    (h : Host) :
  let sel := if Basic.api_Editor apis then [EvGetSelectedText] else [] in
  let msg := fun m level =>
               if Basic.api_App apis then [EvShowMsg m level] else [] in
  Basic.summarizeAction apis aiManager h =
  match (if Basic.api_Editor apis then host_selectedText h else None) with
  | Some (String c s) =>
      match Basic.executeAICommand aiManager "summarize" (String c s) None h with
      | (Throw e, tr) =>
          (Ok tt, (sel ++ msg "Summarizing text..." "info" ++ tr
                   ++ msg (message e) "error")%list)
      | (Ok summary, tr) =>
          (Ok tt, (sel ++ msg "Summarizing text..." "info" ++ tr
                   ++ EvGetCurrentBlock
                      :: match host_currentBlock h with
                         | Some b => [EvInsertBlock (uuid b) summary true]
                         | None => []
                         end)%list)
      end
  | _ => (Ok tt, (sel ++ msg (message NoSelectionError) "error")%list)
  end.
Proof.
  intros sel msg. subst sel msg.
  unfold Basic.summarizeAction, Basic.getSelectedText, Basic.showMsg,
    try_catch, bind. cbv beta.
  destruct (Basic.api_Editor apis), (Basic.api_App apis);
    unfold Editor_getSelectedText, showMsg, emit, ret, throw,
      Editor_getCurrentBlock, Editor_insertBlock; cbv beta;
    try reflexivity;
    (destruct (host_selectedText h) as [[|c s]|]; simpl; try reflexivity;
     destruct (Basic.executeAICommand aiManager "summarize" (String c s) None h)
       as [[summary|e] tr]; simpl;
     [destruct (host_currentBlock h) as [b|]; simpl;
      rewrite ?app_nil_r; reflexivity
     | rewrite ?app_nil_r; reflexivity]).
Qed.

(** X20.  In the first variant, when the host has no [App] part no
    notification is ever shown: the action returns normally whatever
    happens, and a failure leaves no trace for the user. *)
Theorem basic_without_app_is_silent
    (apis : Basic.Apis) (aiManager : AIManager) (h : Host) :
  Basic.api_App apis = false ->
  Basic.Installed aiManager ->
  fst (Basic.summarizeAction apis aiManager h) = Ok tt
  /\ notifications (snd (Basic.summarizeAction apis aiManager h)) = [].
Proof.
  intros A I. rewrite basic_summarizeAction_run. cbv zeta. rewrite A.
  assert (N : notifications
                (if Basic.api_Editor apis then [EvGetSelectedText] else []) = [])
    by now destruct (Basic.api_Editor apis).
  destruct (if Basic.api_Editor apis then host_selectedText h else None)
    as [[|c s]|]; simpl; try (split; [reflexivity|]; now rewrite app_nil_r).
  pose proof (basic_executeAICommand_clientTrace aiManager "summarize"
                (String c s) None h I) as T.
  destruct (Basic.executeAICommand aiManager "summarize" (String c s) None h)
    as [[summary|e] tr]; simpl in *; (split; [reflexivity|]);
    destruct (clientTrace_quiet tr T) as [_ Tn];
    unfold notifications in *; rewrite !filter_app, N, Tn; simpl;
    [now destruct (host_currentBlock h) | reflexivity].
Qed.

Lemma basic_without_app_is_silent_witness :
  fst (Basic.summarizeAction (Basic.mkApis true true false)
         (mkManager (Some (Basic.new "sk-test")) None) Sample.rejecting) = Ok tt
  /\ notifications
       (snd (Basic.summarizeAction (Basic.mkApis true true false)
               (mkManager (Some (Basic.new "sk-test")) None) Sample.rejecting)) = [].
Proof.
  apply (basic_without_app_is_silent (Basic.mkApis true true false)
           (mkManager (Some (Basic.new "sk-test")) None) Sample.rejecting).
  - reflexivity.
  - now exists "sk-test".
Defined.

(** X21.  In the first variant, when the host has no [Editor] part the
    selection reads as absent: the action asks nothing of the host, does
    not call the manager or the network, and its only call is the
    no-selection message at level error, if the [App] part exists. *)
Theorem basic_without_editor_no_selection
    (apis : Basic.Apis) (aiManager : AIManager) (h : Host) :
  Basic.api_Editor apis = false ->
  Basic.summarizeAction apis aiManager h
  = (Ok tt,
     if Basic.api_App apis
     then [EvShowMsg "No text selected. Please select some text first." "error"]
     else []).
Proof.
  intros E. rewrite basic_summarizeAction_run. cbv zeta. now rewrite E.
Qed.

Lemma basic_without_editor_no_selection_witness :
  Basic.summarizeAction (Basic.mkApis true false true) Sample.openai
    (Sample.answering (Sample.openaiBody "A fox jumps.") (Some (mkBlock "b1")))
  = (Ok tt,
     [EvShowMsg "No text selected. Please select some text first." "error"]).
Proof.
  apply (basic_without_editor_no_selection (Basic.mkApis true false true)
           Sample.openai
           (Sample.answering (Sample.openaiBody "A fox jumps.")
                             (Some (mkBlock "b1")))).
  reflexivity.
Defined.

(** X22.  [initialize] of the first variant reads nothing and changes
    nothing when the host has no settings part; and a stored configuration
    spelling "Claude", which the second variant accepts, makes it fail with
    the unsupported-provider error, the configuration stored and the
    provider kept. *)
Theorem basic_initialize_edges (apis : Basic.Apis) (this : AIManager) (h : Host) :
  (Basic.api_settings apis = false ->
   Basic.initialize apis this h = (Ok tt, this, []))
  /\ forall cfg,
      Basic.api_settings apis = true ->
      host_settings h "aiConfig" = Some cfg ->
      sameLettersAnyCase (cfg_provider cfg) "Claude" = true ->
      Basic.initialize apis this h
      = (Throw (UnsupportedProviderError (cfg_provider cfg)),
         mkManager (provider this) (Some cfg),
         [EvSettingsGet "aiConfig"])
      /\ fst (fst (initialize this h)) = Ok tt.
Proof.
  unfold Basic.initialize, Basic.settings_get. split.
  - now intros ->.
  - intros cfg -> S C. unfold settings_get. rewrite S.
    unfold Basic.setProvider.
    pose proof (toLowerCase_sameLetters (cfg_provider cfg) "OpenAI" eq_refl) as E.
    change (toLowerCase "OpenAI") with "openai" in E. rewrite E. clear E.
    destruct (sameLettersAnyCase (cfg_provider cfg) "OpenAI") eqn:O;
      [now rewrite (vendors_disjoint _ O) in C|].
    split; [reflexivity|].
    now rewrite initialize_run, S, setProvider_by_spelling, O, C.
Qed.

Lemma basic_initialize_edges_witness :
  Basic.initialize (Basic.mkApis false true true) Sample.openai Sample.offline
  = (Ok tt, Sample.openai, [])
  /\ Basic.initialize (Basic.mkApis true true true) aiManager0
       (mkHost (fun _ => Throw (Error "Failed to fetch")) (fun _ => "{}")
               (fun _ => "fault") None None
               (fun _ => Some (mkConfig "claude" "sk-ant")))
     = (Throw (UnsupportedProviderError "claude"),
        mkManager (provider aiManager0) (Some (mkConfig "claude" "sk-ant")),
        [EvSettingsGet "aiConfig"])
  /\ fst (fst (initialize aiManager0
                 (mkHost (fun _ => Throw (Error "Failed to fetch")) (fun _ => "{}")
                         (fun _ => "fault") None None
                         (fun _ => Some (mkConfig "claude" "sk-ant"))))) = Ok tt.
Proof.
  split.
  - apply (proj1 (basic_initialize_edges (Basic.mkApis false true true)
                    Sample.openai Sample.offline)).
    reflexivity.
  - apply (proj2 (basic_initialize_edges (Basic.mkApis true true true) aiManager0 _)
                 (mkConfig "claude" "sk-ant"));
      reflexivity.
Defined.

(** X23.  After a successful [setProvider] every command goes to the
    newly chosen vendor with the new API key, whatever provider was active
    before: the one network call of [executeAICommand] is the request of
    the new client. *)
Theorem setProvider_redirects_requests
    (this : AIManager) (providerName apiKey : string) (v : Variant)
    (command text : string) (style : option string) (op : Operation) (h : Host) :
  sameLettersAnyCase providerName (vendorName v) = true ->
  operationOf command style = Some op ->
  networkCalls
    (snd (executeAICommand (snd (setProvider this providerName apiKey))
                           command text style h))
  = [EvFetch (requestOf v apiKey (promptOf op text) h)].
Proof.
  intros V O.
  assert (S : snd (setProvider this providerName apiKey)
              = mkManager (Some (create v apiKey)) (config this)).
  { rewrite setProvider_by_spelling. destruct v; simpl in V.
    - now rewrite V.
    - destruct (sameLettersAnyCase providerName "OpenAI") eqn:E;
        [now rewrite (vendors_disjoint _ E) in V | now rewrite V]. }
  rewrite S, executeAICommand_run, O, perform_create, makeRequest_run. cbv zeta.
  destruct (host_fetch h _) as [response|e]; [|reflexivity].
  now destruct (fst (readResponse v response h)).
Qed.

Lemma setProvider_redirects_requests_witness :
  networkCalls
    (snd (executeAICommand (snd (setProvider Sample.openai "Claude" "sk-ant"))
                           "improve" Sample.fox None Sample.rejecting))
  = [EvFetch (requestOf Claude "sk-ant" (promptOf Improve Sample.fox)
                        Sample.rejecting)].
Proof.
  apply (setProvider_redirects_requests Sample.openai "Claude" "sk-ant" Claude
           "improve" Sample.fox None Improve Sample.rejecting);
    reflexivity.
Defined.
